(** * dallebot: admission control and dispatch of the Telegram DALL-E bot

    A shallow embedding of [dallebot/__main__.py].

    - Python [str] values are lists of Unicode code points.
    - A naive [datetime] is its number of microseconds since
      1970-01-01 00:00:00; a [timedelta] is a difference of two such
      numbers, read through its normalised fields.
    - The module-global data frame [df] is a list of rows, in insertion
      order, each with its index label.  Rows read from the CSV file are
      labelled 0, 1, 2, ...; [pd.concat] keeps labels, so every row
      appended while the process runs has the label 0 of its one-row
      frame.  A selection [frame[key]] by a boolean Series follows pandas
      1.5: a key whose index equals that of the frame selects by position;
      any other key is first re-indexed by the labels of the frame, which
      repeats values when labels repeat.
    - The handlers run in a small state-and-exception monad: the state is
      the global [df] together with the log of the calls issued to the
      outside world (Telegram, OpenAI, the CSV file, the logger); an
      exception leaves the state reached so far in place, as in Python.
    - The answers of the outside world are supplied by a [World] record.
      The Telegram calls of the request handlers are taken to return
      normally; the one send of the error handler is answered by the
      world, and may raise. *)

From Stdlib Require Import ZArith List Bool Lia String Ascii.
From Stdlib Require Import DecimalString.
Import ListNotations.
Local Open Scope Z_scope.

(* ------------------------------------------------------------------ *)
(** ** Python strings *)

Module PyStr.

Definition char := N.
Definition str := list char.

(** An ASCII literal of the source as a [str]. *)
Fixpoint lit (s : string) : str :=
  match s with
  | EmptyString => []
  | String c r => N_of_ascii c :: lit r
  end.

(** [str(n)] for an [int]. *)
Definition str_of_int (n : Z) : str :=
  lit (NilZero.string_of_int (Z.to_int n)).

Fixpoint str_eqb (a b : str) : bool :=
  match a, b with
  | [], [] => true
  | x :: a', y :: b' => N.eqb x y && str_eqb a' b'
  | _, _ => false
  end.

(** [sep.join(parts)]. *)
Fixpoint join (sep : str) (parts : list str) : str :=
  match parts with
  | [] => []
  | [p] => p
  | p :: rest => p ++ sep ++ join sep rest
  end.

(** [str.isspace] on one code point: the code points CPython classifies
    as whitespace. *)
Definition isspace (c : char) : bool :=
  (((9 <=? c) && (c <=? 13)) || ((28 <=? c) && (c <=? 32))
   || (c =? 133) || (c =? 160) || (c =? 5760)
   || ((8192 <=? c) && (c <=? 8202))
   || (c =? 8232) || (c =? 8233) || (c =? 8239) || (c =? 8287)
   || (c =? 12288))%N.

Fixpoint lstrip (s : str) : str :=
  match s with
  | [] => []
  | c :: r => if isspace c then lstrip r else s
  end.

Definition rstrip (s : str) : str := rev (lstrip (rev s)).

(** [s.strip()]. *)
Definition strip (s : str) : str := rstrip (lstrip s).

Fixpoint startswith (p s : str) : bool :=
  match p, s with
  | [], _ => true
  | x :: p', y :: s' => N.eqb x y && startswith p' s'
  | _ :: _, [] => false
  end.

(** [sub in s]. *)
Fixpoint contains (sub s : str) : bool :=
  startswith sub s ||
  match s with
  | [] => false
  | _ :: s' => contains sub s'
  end.

(** [s.replace(old, new)] for a one-character [old]. *)
Definition replace_char (old : char) (new : str) (s : str) : str :=
  flat_map (fun c => if N.eqb c old then new else [c]) s.

(** [s[:n]] for [n >= 0]. *)
Definition slice_to (n : nat) (s : str) : str := firstn n s.

(** [html.escape(s)] with its default [quote=True]: five replacements,
    the ampersand first. *)
Definition html_escape (s : str) : str :=
  let s := replace_char 38%N (lit "&amp;") s in
  let s := replace_char 60%N (lit "&lt;") s in
  let s := replace_char 62%N (lit "&gt;") s in
  let s := replace_char 34%N (lit "&quot;") s in
  let s := replace_char 39%N (lit "&#x27;") s in
  s.

End PyStr.
Import PyStr.

(* ------------------------------------------------------------------ *)
(** ** Python [datetime], [timedelta] and [hash] *)

Module PyTime.

Definition datetime := Z.

Definition us_per_second : Z := 1000000.
Definition seconds_per_day : Z := 86400.
Definition us_per_day : Z := seconds_per_day * us_per_second.

(** Days from 1970-01-01 to the civil date [y-m-d] (proleptic
    Gregorian calendar). *)
Definition days_from_civil (y m d : Z) : Z :=
  let y' := if m <=? 2 then y - 1 else y in
  let era := y' / 400 in
  let yoe := y' - era * 400 in
  let mp := (m + 9) mod 12 in
  let doy := (153 * mp + 2) / 5 + d - 1 in
  let doe := yoe * 365 + yoe / 4 - yoe / 100 + doy in
  era * 146097 + doe - 719468.

(** [datetime.datetime(y, mo, d, h, mi, s, us)]. *)
Definition mk_datetime (y mo d h mi s us : Z) : datetime :=
  ((days_from_civil y mo d * seconds_per_day + h * 3600 + mi * 60 + s)
   * us_per_second) + us.

(** [(a - b).seconds]: the seconds field of the normalised timedelta,
    [0 <= seconds < 86400]; whole days go to [.days], the fraction to
    [.microseconds]. *)
Definition timedelta_seconds (a b : datetime) : Z :=
  ((a - b) / us_per_second) mod seconds_per_day.

(** [datetime.combine(dt.date(), datetime.min.time())]: midnight of the
    day of [dt]. *)
Definition start_of_day (dt : datetime) : datetime :=
  (dt / us_per_day) * us_per_day.

(** [max(xs, default=d)]. *)
Definition max_default (xs : list datetime) (d : datetime) : datetime :=
  match xs with
  | [] => d
  | x :: r => fold_left Z.max r x
  end.

End PyTime.
Import PyTime.

Module PyHash.

(** CPython's [_PyHASH_MODULUS] on a 64-bit build. *)
Definition _PyHASH_MODULUS : Z := 2 ^ 61 - 1.

(** [hash(v)] for an [int]: the value reduced modulo the Mersenne prime,
    with the sign of [v], and [-1] (reserved for errors) replaced by [-2]. *)
Definition hash (v : Z) : Z :=
  let x := Z.sgn v * (Z.abs v mod _PyHASH_MODULUS) in
  if x =? -1 then -2 else x.

End PyHash.
Import PyHash.

(* ------------------------------------------------------------------ *)
(** ** Data of the bot *)

Definition min_requests_delay : Z := 60.
Definition max_images_per_day : Z := 5.

(** [MESSAGE, EMPTY_MESSAGE = range(2)]: the two conversation states. *)
Inductive State := MESSAGE | EMPTY_MESSAGE.

(** One row of [df]: its index label and the columns of [df_columns]. *)
Record Row := {
  label : Z;
  group : bool;
  timestamp : datetime;
  prompt : str;
  size : Z;
  hashed_user : Z
}.

Definition DataFrame := list Row.

(* ------------------------------------------------------------------ *)
(** ** Selection by a boolean Series (pandas 1.5) *)

Module Pandas.

(** The two errors a selection by a boolean Series can raise. *)
Inductive PandasError := IndexingError | IndexError.

(** [frame.index]. *)
Definition labels (d : DataFrame) : list Z := map label d.

(** A boolean Series: index labels with their values. *)
Definition BoolSeries := list (Z * bool).

(** [key.index.equals(index)]. *)
Fixpoint index_equals (a b : list Z) : bool :=
  match a, b with
  | [], [] => true
  | x :: a', y :: b' => (x =? y) && index_equals a' b'
  | _, _ => false
  end.

(** The values of all entries of [key] labelled [l], in the order of the
    key. *)
Definition entries_of (l : Z) (key : BoolSeries) : list bool :=
  map snd (filter (fun kv => fst kv =? l) key).

(** [key.take(key.index.get_indexer_for(index))]: for each label of
    [index] in turn, the values of all entries of [key] with that label;
    [None] when a label of [index] is not in the key ([-1] in the
    indexer). *)
Fixpoint reindexed (key : BoolSeries) (index : list Z) : option (list bool) :=
  match index with
  | [] => Some []
  | l :: rest =>
      match entries_of l key, reindexed key rest with
      | [], _ => None
      | _ :: _, None => None
      | v :: vs, Some r => Some ((v :: vs) ++ r)
      end
  end.

(** [check_bool_indexer(index, key)]. *)
Definition check_bool_indexer (index : list Z) (key : BoolSeries)
    : PandasError + list bool :=
  if index_equals (map fst key) index then inr (map snd key)
  else match reindexed key index with
       | None => inl IndexingError
       | Some vals => inr vals
       end.

(** [vals.nonzero()[0]]: the positions of the true values. *)
Fixpoint nonzero_from (i : nat) (vals : list bool) : list nat :=
  match vals with
  | [] => []
  | v :: rest => (if v then [i] else []) ++ nonzero_from (S i) rest
  end.

Definition nonzero (vals : list bool) : list nat := nonzero_from 0 vals.

(** [frame.take(indexer)]: the rows at the given positions; a position
    past the end raises [IndexError]. *)
Fixpoint take (d : DataFrame) (indexer : list nat) : PandasError + DataFrame :=
  match indexer with
  | [] => inr []
  | k :: rest =>
      match nth_error d k, take d rest with
      | Some r, inr rs => inr (r :: rs)
      | None, _ => inl IndexError
      | Some _, inl e => inl e
      end
  end.

(** [frame[key]] for a boolean Series [key]. *)
Definition getitem_bool (d : DataFrame) (key : BoolSeries)
    : PandasError + DataFrame :=
  match check_bool_indexer (labels d) key with
  | inl e => inl e
  | inr vals => take d (nonzero vals)
  end.

(** [pd.read_csv] labels the rows it reads 0, 1, 2, ... *)
Fixpoint range_index_from (i : Z) (rows : list Row) : DataFrame :=
  match rows with
  | [] => []
  | r :: rest =>
      {| label := i; group := group r; timestamp := timestamp r;
         prompt := prompt r; size := size r; hashed_user := hashed_user r |}
      :: range_index_from (i + 1) rest
  end.

End Pandas.
Import Pandas.

(** Lines 31-38: the frame at start-up.  [file] holds the rows of the CSV
    file, or is [None] when reading or converting it raises. *)
Definition initial_df (file : option (list Row)) : DataFrame :=
  match file with
  | Some rows => range_index_from 0 rows
  | None => []
  end.

(** The exception classes the source tells apart, with [str(e)] and the
    text [traceback.format_exception] gives for it. *)
Inductive ExnClass := InvalidRequestError | RateLimitError | OtherException.

Record Exn := {
  exn_class : ExnClass;
  exn_str : str;
  exn_traceback : str
}.

(** The part of a Telegram update the handlers read.  A message is a
    command with its arguments ([context.args]) or plain text;
    [chat_type] is [None] when reading [update.message.chat.type] for the
    group test raises. *)
Inductive Message :=
| Command (name : str) (args : list str)
| Text (text : str).

Record Update := {
  chat_id : Z;
  chat_type : option str;
  from_user_id : Z;
  message : Message
}.

(** Calls issued to the outside world, in the order they are made. *)
Inductive Call :=
| send_chat_action (chat : Z)
| send_message (chat : Z) (text : str) (parse_mode_html : bool)
| send_photo (chat : Z) (photo : str) (caption : str)
| to_csv (rows : DataFrame)
| Moderation_create (input : str)
| Image_create (prompt : str) (n : Z) (size : str) (user : str)
| logger_error.

(** What the outside world answers. [date_today] is midnight of
    [datetime.date.today()]; [pandas_exception] is the Python exception
    object for a pandas error, with its message and traceback;
    [error_report_result] is what the send of the error handler answers
    ([None]: delivered). *)
Record World := {
  datetime_now : datetime;
  date_today : datetime;
  to_csv_result : option Exn;
  moderation_flagged : str -> Exn + bool;
  image_url : str -> Z -> str -> str -> Exn + str;
  pandas_exception : PandasError -> Exn;
  error_report_result : option Exn
}.

(** Ghost label of the branch a request took, named as in the
    specification.  It is written by [mark] and read by no code. *)
Inductive Outcome :=
| TooSoon (retry_after : Z)
| QuotaExceeded
| PromptRequired
| Blocked
| Delivered
| ProviderError.

(* ------------------------------------------------------------------ *)
(** ** The handler monad *)

Record St := {
  df : DataFrame;
  calls : list Call;
  outcome : option Outcome
}.

Inductive Res (A : Type) :=
| Return (a : A)
| Raise (e : Exn).
Arguments Return {A} a.
Arguments Raise {A} e.

Definition M (A : Type) : Type := World -> St -> Res A * St.

Definition ret {A} (a : A) : M A := fun _ s => (Return a, s).

Definition bind {A B} (m : M A) (k : A -> M B) : M B :=
  fun w s =>
    match m w s with
    | (Return a, s') => k a w s'
    | (Raise e, s') => (Raise e, s')
    end.

Definition raise {A} (e : Exn) : M A := fun _ s => (Raise e, s).

(** [try: body except ... as e: handler e]. *)
Definition try_except {A} (body : M A) (handler : Exn -> M A) : M A :=
  fun w s =>
    match body w s with
    | (Return a, s') => (Return a, s')
    | (Raise e, s') => handler e w s'
    end.

Declare Scope py_scope.
Delimit Scope py_scope with py.
Notation "x <- c ;; k" := (bind c (fun x => k))
  (at level 61, c at next level, right associativity) : py_scope.
Notation "c ;; k" := (bind c (fun _ => k))
  (at level 61, right associativity) : py_scope.
Local Open Scope py_scope.

Definition ask : M World := fun w s => (Return w, s).

Definition get_df : M DataFrame := fun _ s => (Return (df s), s).

Definition set_df (d : DataFrame) : M unit :=
  fun _ s => (Return tt, {| df := d; calls := calls s; outcome := outcome s |}).

Definition call (c : Call) : M unit :=
  fun _ s =>
    (Return tt, {| df := df s; calls := calls s ++ [c]; outcome := outcome s |}).

Definition mark (o : Outcome) : M unit :=
  fun _ s =>
    (Return tt, {| df := df s; calls := calls s; outcome := Some o |}).

(** A call whose answer may be an exception. *)
Definition answer {A} (r : Exn + A) : M A :=
  match r with
  | inl e => raise e
  | inr a => ret a
  end.

(** [df.to_csv(csv_file_name, header=True, index=False)]: the whole frame
    is written. *)
Definition df_to_csv : M unit :=
  d <- get_df ;;
  call (to_csv d) ;;
  w <- ask ;;
  match to_csv_result w with
  | Some e => raise e
  | None => ret tt
  end.

Definition openai_Moderation_create (input : str) : M bool :=
  call (Moderation_create input) ;;
  w <- ask ;;
  answer (moderation_flagged w input).

Definition openai_Image_create (p : str) (n : Z) (sz : str) (user : str) : M str :=
  call (Image_create p n sz user) ;;
  w <- ask ;;
  answer (image_url w p n sz user).

(* ------------------------------------------------------------------ *)
(** ** The handlers *)

Section Handlers.

(** [config["developer_chat_id"]]. *)
Variable developer_chat_id : Z.

Definition greeting : str :=
  lit "Hi there! I" ++ [8217%N] ++ lit "m DALL" ++ [183%N] ++ lit "E Bot."
  ++ [10%N]
  ++ lit "Send me a prompt and I" ++ [8217%N]
  ++ lit "ll send you an image generated by OpenAI" ++ [8217%N]
  ++ lit "s DALL" ++ [183%N] ++ lit "E." ++ [10%N]
  ++ lit "As the image generation is not for free there is a limit set to "
  ++ lit "one request per " ++ str_of_int min_requests_delay
  ++ lit " seconds and " ++ str_of_int max_images_per_day
  ++ lit " images per day." ++ [10%N]
  ++ lit "In order to achieve this, I'm storing your anonymised hashed user id together with "
  ++ lit "the timestamp of your message." ++ [10%N]
  ++ lit "To comply with OpenAI's moderation policy, I'm also storing the prompts and the generated images, "
  ++ lit "again all fully anonymised." ++ [10%N; 10%N]
  ++ lit "If you find issues or have any questions, please contact dallebot@jakubwaller.eu"
  ++ [10%N]
  ++ lit "If you want to support the bot, you can buy him a coffee here https://ko-fi.com/jakubwaller"
  ++ [10%N]
  ++ lit "Feel free to also check out the code at: https://github.com/jakubwaller/dallebot".

Definition start (update : Update) : M State :=
  call (send_message (chat_id update) greeting false) ;;
  ret MESSAGE.

(** The default of the parameter [size] of [generate]. *)
Definition generate_default_size : Z := 256.

Definition policy_notice : str :=
  lit "This prompt doesn't comply with OpenAI's content policy.".

Definition policy_notice_developer (p : str) : str :=
  lit "This prompt doesn't comply with OpenAI's content policy: " ++ p ++ lit ".".

Definition generate (update : Update) (p : str) (chat : Z)
    (now : datetime) (user : Z) (sz : Z) : M State :=
  call (send_chat_action chat) ;;
  is_group <- match chat_type update with
              | Some t => ret (contains (lit "group") t)
              | None => call logger_error ;; ret false
              end ;;
  d <- get_df ;;
  set_df (d ++ [ {| label := 0; group := is_group; timestamp := now;
                    prompt := p; size := sz; hashed_user := user |} ]) ;;
  df_to_csv ;;
  let is_group_text := if is_group then lit "group: " else lit "single user: " in
  try_except
    (flagged <- openai_Moderation_create p ;;
     if negb flagged then
       url <- openai_Image_create p 1
                (str_of_int sz ++ lit "x" ++ str_of_int sz) (str_of_int user) ;;
       call (send_photo chat url p) ;;
       call (send_photo developer_chat_id url (is_group_text ++ p)) ;;
       mark Delivered
     else
       call (send_message chat policy_notice false) ;;
       call (send_message developer_chat_id (policy_notice_developer p) false) ;;
       mark Blocked)
    (fun e =>
       match exn_class e with
       | InvalidRequestError | RateLimitError =>
           call (send_message chat (exn_str e) false) ;;
           call (send_message developer_chat_id
                   (p ++ [10%N] ++ exn_str e) false) ;;
           mark ProviderError
       | OtherException => raise e
       end) ;;
  ret MESSAGE.

(** [datetime.datetime.strptime("2022-01-01", "%Y-%m-%d")]. *)
Definition default_last_datetime : datetime := mk_datetime 2022 1 1 0 0 0 0.

(** [df[df.hashed_user == hashed_user]]: the key has the index of the
    frame itself, so the rows are selected by position. *)
Definition rows_of_user (d : DataFrame) (user : Z) : DataFrame :=
  filter (fun r => hashed_user r =? user) d.

(** [max(df[df.hashed_user == hashed_user]["timestamp"], default=...)]. *)
Definition max_datetime_for_user (d : DataFrame) (user : Z) : datetime :=
  max_default (map timestamp (rows_of_user d user)) default_last_datetime.

(** [df.timestamp >= today]: a Series over the whole frame. *)
Definition timestamp_mask (d : DataFrame) (today : datetime) : BoolSeries :=
  map (fun r => (label r, today <=? timestamp r)) d.

(** [df[df.hashed_user == hashed_user][df.timestamp >= today].shape[0]]:
    the key of the second selection is indexed by the whole frame, not by
    the rows of the user. *)
Definition number_of_requests_per_day (d : DataFrame) (user : Z)
    (today : datetime) : PandasError + Z :=
  match getitem_bool (rows_of_user d user) (timestamp_mask d today) with
  | inl e => inl e
  | inr selected => inr (Z.of_nat (List.length selected))
  end.

(** [seconds_diff = (datetime_now - max_datetime_for_user).seconds]. *)
Definition seconds_diff (d : DataFrame) (user : Z) (now : datetime) : Z :=
  timedelta_seconds now (max_datetime_for_user d user).

Definition too_early_text (seconds_diff : Z) : str :=
  lit "Sorry, due to resource constraints, it's only allowed to send one request per "
  ++ str_of_int min_requests_delay ++ lit " seconds." ++ [10%N]
  ++ lit "Please try again in " ++ str_of_int (min_requests_delay - seconds_diff)
  ++ lit " seconds.".

Definition limit_text : str :=
  lit "Sorry, as the image generation is not for free, there is a limit of "
  ++ str_of_int max_images_per_day ++ lit " per day. "
  ++ lit "Please try again tomorrow.".

Definition ask_prompt_text : str :=
  lit "K let's do this! What image should I generate?".

Definition check_if_prompt_empty_and_message_not_too_early
    (update : Update) (p : str) : M State :=
  d <- get_df ;;
  w <- ask ;;
  let chat := chat_id update in
  let user := hash (from_user_id update) in
  let now := datetime_now w in
  let seconds_diff := seconds_diff d user now in
  if seconds_diff <? min_requests_delay then
    call (send_message chat (too_early_text seconds_diff) false) ;;
    mark (TooSoon (min_requests_delay - seconds_diff)) ;;
    ret EMPTY_MESSAGE
  else
    let today := date_today w in
    match number_of_requests_per_day d user today with
    | inl e => raise (pandas_exception w e)
    | inr count =>
        if count >? max_images_per_day then
          call (send_message chat limit_text false) ;;
          mark QuotaExceeded ;;
          ret EMPTY_MESSAGE
        else if (Z.of_nat (List.length p) =? 0) || str_eqb p [] then
          call (send_message chat ask_prompt_text false) ;;
          mark PromptRequired ;;
          ret EMPTY_MESSAGE
        else
          generate update p chat now user generate_default_size
    end.

(** [context.args] of a command; a text message has none. *)
Definition context_args (update : Update) : list str :=
  match message update with
  | Command _ args => args
  | Text _ => []
  end.

(** [update.message.text]; for a command, the command line itself. *)
Definition message_text (update : Update) : str :=
  match message update with
  | Command name args => join (lit " ") ((lit "/" ++ name) :: args)
  | Text t => t
  end.

Definition generate_from_command (update : Update) : M State :=
  let p := strip (join (lit " ") (context_args update)) in
  check_if_prompt_empty_and_message_not_too_early update p.

Definition generate_from_message (update : Update) : M State :=
  let p := strip (message_text update) in
  check_if_prompt_empty_and_message_not_too_early update p.

Definition error_header : str :=
  lit "An exception was raised while handling an update" ++ [10%N]
  ++ lit "<pre>".

Definition error_text (tb_string : str) : str :=
  let message := error_header ++ html_escape tb_string in
  slice_to 4090 message ++ lit "</pre>".

Definition error_handler (error : Exn) : M State :=
  call logger_error ;;
  let tb_string := exn_traceback error in
  call (send_message developer_chat_id (error_text tb_string) true) ;;
  w <- ask ;;
  match error_report_result w with
  | Some e => raise e
  | None => ret tt
  end ;;
  ret MESSAGE.

Definition cancel (update : Update) : M State := ret MESSAGE.

(** [CommandHandler(name, ...)] accepts the update. *)
Definition is_command (name : string) (update : Update) : bool :=
  match message update with
  | Command n _ => str_eqb n (lit name)
  | Text _ => false
  end.

(** [Filters.text & ~Filters.command] accepts the update. *)
Definition is_text (update : Update) : bool :=
  match message update with
  | Command _ _ => false
  | Text t => negb (str_eqb t [])
  end.

(** The [ConversationHandler] of [main]: the callback that handles
    [update] in conversation state [st] ([None]: no conversation yet, only
    the entry points apply), if any. *)
Definition conv_handler (st : option State) (update : Update)
    : option (M State) :=
  let commands :=
    if is_command "generate" update then Some (generate_from_command update)
    else if is_command "start" update then Some (start update)
    else None in
  let fallbacks :=
    if is_command "cancel" update then Some (cancel update) else None in
  match st with
  | None => commands
  | Some MESSAGE =>
      match commands with Some h => Some h | None => fallbacks end
  | Some EMPTY_MESSAGE =>
      if is_text update then Some (generate_from_message update)
      else match commands with Some h => Some h | None => fallbacks end
  end.

(** The dispatcher on one update: the callback's return value becomes the
    conversation state; when the callback raises, the state is kept and
    the error handler runs; an exception of the error handler is logged
    by the dispatcher and goes no further. *)
Definition process_update (st : option State) (update : Update)
    : M (option State) :=
  match conv_handler st update with
  | None => ret st
  | Some h =>
      try_except (s <- h ;; ret (Some s))
                 (fun e => try_except (error_handler e ;; ret st)
                                      (fun _ => ret st))
  end.

End Handlers.

(** Running a handler on a data frame, from an empty call log. *)
Definition run {A} (m : M A) (w : World) (d : DataFrame) : Res A * St :=
  m w {| df := d; calls := []; outcome := None |}.

(* ------------------------------------------------------------------ *)
(** ** Vocabulary of the properties *)

(** The user of an update, as the handlers identify it. *)
Definition user_of (update : Update) : Z := hash (from_user_id update).

(** The value [generate] computes for [is_group]. *)
Definition is_group_of (update : Update) : bool :=
  match chat_type update with
  | Some t => contains (lit "group") t
  | None => false
  end.

(** The row [generate] appends for a request, with the label 0 that
    [pd.concat] keeps from the one-row frame. *)
Definition new_row (update : Update) (p : str) (now : datetime) (sz : Z) : Row :=
  {| label := 0;
     group := is_group_of update;
     timestamp := now; prompt := p; size := sz;
     hashed_user := user_of update |}.

(** Calls to the OpenAI provider. *)
Definition is_provider_call (c : Call) : bool :=
  match c with
  | Moderation_create _ | Image_create _ _ _ _ => true
  | _ => false
  end.

(** The delay check and the quota check of a request. *)
Definition passes_interval (d : DataFrame) (update : Update) (w : World) : Prop :=
  min_requests_delay <= seconds_diff d (user_of update) (datetime_now w).

Definition passes_quota (d : DataFrame) (update : Update) (w : World) : Prop :=
  exists n,
    number_of_requests_per_day d (user_of update) (date_today w) = inr n /\
    n <= max_images_per_day.

(** In the words of the specification: the number of records with
    matching identity and timestamp at or after the reference instant. *)
Definition count_since (d : DataFrame) (identity : Z)
    (reference_instant : datetime) : Z :=
  Z.of_nat (List.length
              (filter (fun r => (hashed_user r =? identity)
                                && (reference_instant <=? timestamp r)) d)).

(** Frames on which the key of the quota line lines up with the rows of
    the user: no label occurs twice, or every row is the user's. *)
Definition aligned (d : DataFrame) (user : Z) : Prop :=
  NoDup (labels d) \/ rows_of_user d user = d.

(** The calls [generate] makes up to and including the write of the CSV
    file. *)
Definition calls_until_csv (update : Update) (chat : Z) (d : DataFrame) : list Call :=
  [send_chat_action chat]
  ++ match chat_type update with Some _ => [] | None => [logger_error] end
  ++ [to_csv d].

(** The calls [generate] makes after the CSV file is written. *)
Definition calls_after_csv (dev : Z) (update : Update) (p : str) (chat : Z)
    (user sz : Z) (w : World) : list Call :=
  Moderation_create p ::
  match moderation_flagged w p with
  | inr false =>
      let sz_text := str_of_int sz ++ lit "x" ++ str_of_int sz in
      Image_create p 1 sz_text (str_of_int user) ::
      match image_url w p 1 sz_text (str_of_int user) with
      | inr url =>
          [send_photo chat url p;
           send_photo dev url
             ((if is_group_of update then lit "group: "
               else lit "single user: ") ++ p)]
      | inl e =>
          match exn_class e with
          | OtherException => []
          | _ => [send_message chat (exn_str e) false;
                  send_message dev (p ++ [10%N] ++ exn_str e) false]
          end
      end
  | inr true =>
      [send_message chat policy_notice false;
       send_message dev (policy_notice_developer p) false]
  | inl e =>
      match exn_class e with
      | OtherException => []
      | _ => [send_message chat (exn_str e) false;
              send_message dev (p ++ [10%N] ++ exn_str e) false]
      end
  end.

(** The conversation state the handlers return for each outcome. *)
Definition next_state (o : Outcome) : State :=
  match o with
  | TooSoon _ | QuotaExceeded | PromptRequired => EMPTY_MESSAGE
  | Blocked | Delivered | ProviderError => MESSAGE
  end.

(** The transition rule in the words of the specification: only
    [PromptRequired] leaves the state that awaits a command. *)
Definition spec_next_state (o : Outcome) : State :=
  match o with
  | PromptRequired => EMPTY_MESSAGE
  | _ => MESSAGE
  end.

(** Messages and photos in the call log. *)
Definition is_send (c : Call) : bool :=
  match c with
  | send_message _ _ _ | send_photo _ _ _ => true
  | _ => false
  end.

(** Image requests in the call log. *)
Definition is_Image_create (c : Call) : bool :=
  match c with
  | Image_create _ _ _ _ => true
  | _ => false
  end.

(** What [html.escape] does to one character. *)
Definition escape_char (c : char) : str :=
  if (c =? 38)%N then lit "&amp;"
  else if (c =? 60)%N then lit "&lt;"
  else if (c =? 62)%N then lit "&gt;"
  else if (c =? 34)%N then lit "&quot;"
  else if (c =? 39)%N then lit "&#x27;"
  else [c].

(** An image request asks for one image of 256 by 256. *)
Definition image_request_ok (c : Call) : Prop :=
  match c with
  | Image_create _ n sz _ => n = 1 /\ sz = lit "256x256"
  | _ => True
  end.

(** A request is admitted when it passes both checks and has a prompt. *)
Definition admitted (d : DataFrame) (update : Update) (p : str) (w : World)
    : Prop :=
  passes_interval d update w /\ passes_quota d update w /\ p <> [].

(** The text that the handler selected for an update strips to get the
    prompt: the joined arguments of a command, the text of a message. *)
Definition raw_prompt (update : Update) : str :=
  match message update with
  | Command _ args => join (lit " ") args
  | Text t => t
  end.

(** No whitespace at either end. *)
Definition trimmed (p : str) : Prop :=
  match p with
  | [] => True
  | c :: _ => isspace c = false /\ isspace (last p c) = false
  end.

(* ------------------------------------------------------------------ *)
(** ** The dispatcher loop *)

(** The conversation states the [ConversationHandler] keeps, one per chat
    and user; [None]: no conversation yet. *)
Definition Conversations := Z -> Z -> option State.

Definition no_conversations : Conversations := fun _ _ => None.

Definition update_state (convs : Conversations) (chat user : Z)
    (cst : option State) : Conversations :=
  fun c u => if (c =? chat) && (u =? user) then cst else convs c u.

(** The dispatcher started by [main] on a queue of updates, one after the
    other; each update comes with the answers the outside world gives
    while it is processed. *)
Fixpoint process_updates (dev : Z) (convs : Conversations)
    (queue : list (World * Update)) (s : St) : Conversations * St :=
  match queue with
  | [] => (convs, s)
  | (w, update) :: rest =>
      let chat := chat_id update in
      let user := from_user_id update in
      match process_update dev (convs chat user) update w s with
      | (Return cst, s') =>
          process_updates dev (update_state convs chat user cst) rest s'
      | (Raise _, s') => process_updates dev convs rest s'
      end
  end.

(** A state with the same frame, an empty call log and no outcome. *)
Definition clean (s : St) : St :=
  {| df := df s; calls := []; outcome := None |}.

(** The state [st] reached from [clean s], seen from [s]. *)
Definition resume (s st : St) : St :=
  {| df := df st;
     calls := calls s ++ calls st;
     outcome := match outcome st with
                | Some o => Some o
                | None => outcome s
                end |}.

(** A computation that only appends to the call log and reads nothing of
    the state but the frame. *)
Definition framed {A} (m : M A) : Prop :=
  forall w s, m w s = (fst (m w (clean s)), resume s (snd (m w (clean s)))).

(** What holds of every row the handlers record. *)
Definition row_ok (r : Row) : Prop :=
  size r = 256 /\ prompt r <> [] /\ trimmed (prompt r).

(** A CSV write in the call log writes the frame [rows]. *)
Definition csv_writes (P : DataFrame -> Prop) (c : Call) : Prop :=
  match c with
  | to_csv rows => P rows
  | _ => True
  end.

(* ------------------------------------------------------------------ *)
(** ** Sample data *)

Module Sample.

Definition developer : Z := 99.

(** A Python exception object for a pandas error. *)
Definition pandas_exn (e : PandasError) : Exn :=
  {| exn_class := OtherException;
     exn_str := match e with
                | IndexError => lit "indices are out-of-bounds"
                | IndexingError => lit "Unalignable boolean Series"
                end;
     exn_traceback := lit "Traceback: line 150 <pandas>" |}.

(** A world where every outside call succeeds and nothing is flagged. *)
Definition world (now : datetime) : World :=
  {| datetime_now := now;
     date_today := start_of_day now;
     to_csv_result := None;
     moderation_flagged := fun _ => inr false;
     image_url := fun _ _ _ _ => inr (lit "https://img.example/1.png");
     pandas_exception := pandas_exn;
     error_report_result := None |}.

(** The same world with a moderation endpoint that flags everything. *)
Definition flagging_world (now : datetime) : World :=
  {| datetime_now := now;
     date_today := start_of_day now;
     to_csv_result := None;
     moderation_flagged := fun _ => inr true;
     image_url := fun _ _ _ _ => inr (lit "https://img.example/1.png");
     pandas_exception := pandas_exn;
     error_report_result := None |}.

Definition alice : Z := 123456789.

Definition generate_cat : Update :=
  {| chat_id := 7; chat_type := Some (lit "private"); from_user_id := alice;
     message := Command (lit "generate") [lit "a"; lit "cat"] |}.

Definition generate_nothing : Update :=
  {| chat_id := 7; chat_type := Some (lit "private"); from_user_id := alice;
     message := Command (lit "generate") [] |}.

Definition noon : datetime := mk_datetime 2022 11 5 12 0 0 0.

Definition row_at (t : datetime) : Row :=
  {| label := 0; group := false; timestamp := t; prompt := lit "a dog";
     size := 256; hashed_user := hash alice |}.

End Sample.

(** Further sample data. *)
Module Sample2.

Definition bob : Z := 987654321.

(** Six requests of Alice on 2022-11-05, as rows of the CSV file. *)
Definition six_rows_of_alice : list Row :=
  map Sample.row_at
    [mk_datetime 2022 11 5 1 0 0 0; mk_datetime 2022 11 5 2 0 0 0;
     mk_datetime 2022 11 5 3 0 0 0; mk_datetime 2022 11 5 4 0 0 0;
     mk_datetime 2022 11 5 5 0 0 0; mk_datetime 2022 11 5 6 0 0 0].

(** Bob asks for a dog at 11:00. *)
Definition bob_generate : Update :=
  {| chat_id := 8; chat_type := Some (lit "private"); from_user_id := bob;
     message := Command (lit "generate") [lit "a"; lit "dog"] |}.

(** The row recorded for that request. *)
Definition bob_row : Row :=
  {| label := 0; group := false;
     timestamp := mk_datetime 2022 11 5 11 0 0 0;
     prompt := lit "a dog"; size := 256; hashed_user := hash bob |}.

(** A plain text message of Alice. *)
Definition text_a_cat : Update :=
  {| chat_id := 7; chat_type := Some (lit "private");
     from_user_id := Sample.alice; message := Text (lit " a cat ") |}.

Definition cancel_command : Update :=
  {| chat_id := 7; chat_type := Some (lit "private");
     from_user_id := Sample.alice; message := Command (lit "cancel") [] |}.

Definition start_command : Update :=
  {| chat_id := 7; chat_type := Some (lit "supergroup");
     from_user_id := Sample.alice; message := Command (lit "start") [] |}.

Definition rate_limit : Exn :=
  {| exn_class := RateLimitError;
     exn_str := lit "Rate limit reached";
     exn_traceback := lit "Traceback: <RateLimitError>" |}.

Definition timeout : Exn :=
  {| exn_class := OtherException;
     exn_str := lit "timed out";
     exn_traceback := lit "Traceback: <Timeout>" |}.

(** A world whose moderation endpoint raises [e]. *)
Definition moderation_raises (e : Exn) (now : datetime) : World :=
  {| datetime_now := now;
     date_today := start_of_day now;
     to_csv_result := None;
     moderation_flagged := fun _ => inl e;
     image_url := fun _ _ _ _ => inr (lit "https://img.example/1.png");
     pandas_exception := Sample.pandas_exn;
     error_report_result := None |}.

(** A world whose image endpoint raises [e]. *)
Definition image_raises (e : Exn) (now : datetime) : World :=
  {| datetime_now := now;
     date_today := start_of_day now;
     to_csv_result := None;
     moderation_flagged := fun _ => inr false;
     image_url := fun _ _ _ _ => inl e;
     pandas_exception := Sample.pandas_exn;
     error_report_result := None |}.

(** A world where the send of the error handler raises [e]. *)
Definition report_fails (e : Exn) (now : datetime) : World :=
  {| datetime_now := now;
     date_today := start_of_day now;
     to_csv_result := None;
     moderation_flagged := fun _ => inr false;
     image_url := fun _ _ _ _ => inr (lit "https://img.example/1.png");
     pandas_exception := Sample.pandas_exn;
     error_report_result := Some e |}.

(** A world where the CSV file cannot be written. *)
Definition disk_full (e : Exn) (now : datetime) : World :=
  {| datetime_now := now;
     date_today := start_of_day now;
     to_csv_result := Some e;
     moderation_flagged := fun _ => inr false;
     image_url := fun _ _ _ _ => inr (lit "https://img.example/1.png");
     pandas_exception := Sample.pandas_exn;
     error_report_result := None |}.

End Sample2.

(* ------------------------------------------------------------------ *)
(** ** Proof automation *)

Ltac unfold_py :=
  unfold generate, df_to_csv, openai_Moderation_create, openai_Image_create,
    start, cancel, error_handler,
    bind, ret, raise, try_except, call, mark, get_df, set_df, ask, answer;
  cbn [df calls outcome fst snd negb].

(* ------------------------------------------------------------------ *)
(** ** Time arithmetic *)

Lemma default_last_datetime_midnight :
  default_last_datetime = 18993 * us_per_day.
Proof. reflexivity. Qed.

Lemma timedelta_seconds_range (a b : datetime) :
  0 <= timedelta_seconds a b < seconds_per_day.
Proof.
  unfold timedelta_seconds. apply Z.mod_pos_bound. reflexivity.
Qed.

Lemma timedelta_seconds_gap (t g : Z) :
  timedelta_seconds (t + g) t = (g / us_per_second) mod seconds_per_day.
Proof.
  unfold timedelta_seconds. f_equal. f_equal. lia.
Qed.

Lemma timedelta_seconds_within_day (t g : Z) :
  0 <= g < us_per_day ->
  timedelta_seconds (t + g) t = g / us_per_second.
Proof.
  intros Hg. rewrite timedelta_seconds_gap.
  apply Z.mod_small. split.
  - apply Z.div_pos; [lia | reflexivity].
  - apply Z.div_lt_upper_bound; [reflexivity |].
    unfold us_per_day in Hg. lia.
Qed.

(** The [.seconds] field forgets whole days. *)
Lemma timedelta_seconds_drops_days (t g k : Z) :
  timedelta_seconds (t + g + k * us_per_day) t = timedelta_seconds (t + g) t.
Proof.
  rewrite <- Z.add_assoc, !timedelta_seconds_gap.
  unfold us_per_day.
  replace (g + k * (seconds_per_day * us_per_second))
    with (g + (k * seconds_per_day) * us_per_second) by ring.
  rewrite Z.div_add by (unfold us_per_second; lia).
  apply Z_mod_plus_full.
Qed.

(** For a user without rows the computed gap is the time of day of the
    request, whatever the date. *)
Lemma seconds_diff_new_user (d : DataFrame) (user : Z) (now : datetime) :
  rows_of_user d user = [] ->
  seconds_diff d user now = (now / us_per_second) mod seconds_per_day.
Proof.
  intros Hnone. unfold seconds_diff, max_datetime_for_user.
  rewrite Hnone. simpl max_default.
  rewrite default_last_datetime_midnight.
  unfold timedelta_seconds, us_per_day.
  replace (now - 18993 * (seconds_per_day * us_per_second))
    with (now + (- 18993 * seconds_per_day) * us_per_second) by ring.
  rewrite Z.div_add by (unfold us_per_second; lia).
  replace (-18993 * seconds_per_day) with ((-18993) * seconds_per_day) by ring.
  apply Z_mod_plus_full.
Qed.

(** [hash] is the identity on the integers below the modulus, which
    include every Telegram user id. *)
Lemma hash_small_int (v : Z) :
  0 <= v < _PyHASH_MODULUS -> hash v = v.
Proof.
  intros Hv. unfold hash.
  rewrite Z.abs_eq by lia. rewrite Z.mod_small by lia.
  destruct (Z.eq_dec v 0) as [-> | Hnz]; [reflexivity |].
  rewrite Z.sgn_pos by lia. rewrite Z.mul_1_l.
  destruct (Z.eqb_spec v (-1)); [lia | reflexivity].
Qed.

(* ------------------------------------------------------------------ *)
(** ** The quota line *)

Section QuotaLine.

Variable today : datetime.

Let in_day (r : Row) : bool := today <=? timestamp r.

Lemma timestamp_mask_labels (d : DataFrame) :
  map fst (timestamp_mask d today) = labels d.
Proof.
  unfold timestamp_mask, labels. rewrite map_map. reflexivity.
Qed.

Lemma timestamp_mask_values (d : DataFrame) :
  map snd (timestamp_mask d today) = map in_day d.
Proof.
  unfold timestamp_mask. rewrite map_map. reflexivity.
Qed.

Lemma count_since_rows_of_user (d : DataFrame) (u : Z) :
  count_since d u today
  = Z.of_nat (List.length (filter in_day (rows_of_user d u))).
Proof.
  unfold count_since, rows_of_user. f_equal. f_equal.
  induction d as [| r d IH]; [reflexivity |].
  cbn [filter]. destruct (hashed_user r =? u); cbn [andb filter].
  - fold (in_day r). destruct (in_day r); [f_equal |]; exact IH.
  - exact IH.
Qed.

Lemma index_equals_eq (a b : list Z) :
  index_equals a b = true <-> a = b.
Proof.
  revert b. induction a as [| x a IH]; intros [| y b]; cbn;
    try (split; [discriminate | discriminate]); [tauto |].
  rewrite andb_true_iff, Z.eqb_eq, IH. split.
  - intros [-> ->]. reflexivity.
  - intros H. inversion H. tauto.
Qed.

Lemma filter_whole (A : Type) (f : A -> bool) (l : list A) :
  List.length (filter f l) = List.length l -> filter f l = l.
Proof.
  induction l as [| x l IH]; [reflexivity |].
  cbn [filter]. destruct (f x); cbn [List.length]; intros H.
  - f_equal. apply IH. lia.
  - pose proof (filter_length_le f l). lia.
Qed.

Lemma take_length (d : DataFrame) (indexer : list nat) (rs : DataFrame) :
  take d indexer = inr rs -> List.length rs = List.length indexer.
Proof.
  revert rs. induction indexer as [| k rest IH]; intros rs; cbn [take].
  - intros H. inversion H. reflexivity.
  - destruct (nth_error d k); [| discriminate].
    destruct (take d rest) as [e | rs']; [discriminate |].
    intros H. inversion H. cbn. f_equal. apply IH. reflexivity.
Qed.

Lemma nonzero_from_length (i : nat) (vals : list bool) :
  List.length (nonzero_from i vals)
  = List.length (filter (fun v => v) vals).
Proof.
  revert i. induction vals as [| v vals IH]; intros i; [reflexivity |].
  cbn [nonzero_from filter]. rewrite length_app, IH.
  destruct v; reflexivity.
Qed.

(** With one value per row, the selection keeps the rows whose value is
    true. *)
Lemma take_nonzero_map (f : Row -> bool) (pre rows : DataFrame) :
  take (pre ++ rows) (nonzero_from (List.length pre) (map f rows))
  = inr (filter f rows).
Proof.
  revert pre. induction rows as [| r rows IH]; intros pre; [reflexivity |].
  cbn [map nonzero_from filter].
  assert (Hrest : take (pre ++ r :: rows)
                    (nonzero_from (S (List.length pre)) (map f rows))
                  = inr (filter f rows)).
  { specialize (IH (pre ++ [r])).
    rewrite <- app_assoc, length_app in IH. cbn [app List.length] in IH.
    rewrite Nat.add_1_r in IH. exact IH. }
  destruct (f r); cbn [app].
  - cbn [take]. rewrite nth_error_app2 by lia.
    rewrite Nat.sub_diag. cbn [nth_error]. rewrite Hrest. reflexivity.
  - exact Hrest.
Qed.

Lemma entries_of_cons (l : Z) (r : Row) (d : DataFrame) :
  entries_of l (timestamp_mask (r :: d) today)
  = (if label r =? l then [in_day r] else [])
    ++ entries_of l (timestamp_mask d today).
Proof.
  unfold entries_of, timestamp_mask. cbn [map filter fst].
  destruct (label r =? l); reflexivity.
Qed.

Lemma entries_of_own (d : DataFrame) (r : Row) :
  In r d -> In (in_day r) (entries_of (label r) (timestamp_mask d today)).
Proof.
  induction d as [| x d IH]; [contradiction |].
  intros [-> | Hin]; rewrite entries_of_cons.
  - rewrite Z.eqb_refl. left. reflexivity.
  - apply in_or_app. right. apply IH. exact Hin.
Qed.

Lemma entries_of_absent (d : DataFrame) (l : Z) :
  ~ In l (labels d) -> entries_of l (timestamp_mask d today) = [].
Proof.
  induction d as [| x d IH]; [reflexivity |].
  cbn [labels map]. intros Hnot. rewrite entries_of_cons.
  destruct (Z.eqb_spec (label x) l) as [Heq | _].
  - exfalso. apply Hnot. left. exact Heq.
  - apply IH. intros Hin. apply Hnot. right. exact Hin.
Qed.

Lemma entries_of_unique (d : DataFrame) (r : Row) :
  NoDup (labels d) -> In r d ->
  entries_of (label r) (timestamp_mask d today) = [in_day r].
Proof.
  induction d as [| x d IH]; [contradiction |].
  cbn [labels map]. intros Hnd Hin. inversion Hnd as [| ? ? Hfresh Hnd']; subst.
  rewrite entries_of_cons. destruct Hin as [-> | Hin].
  - rewrite Z.eqb_refl. rewrite entries_of_absent by exact Hfresh.
    reflexivity.
  - destruct (Z.eqb_spec (label x) (label r)) as [Heq | _].
    + exfalso. apply Hfresh. rewrite Heq. apply in_map. exact Hin.
    + apply IH; assumption.
Qed.

Lemma reindexed_unique (d rows : DataFrame) :
  NoDup (labels d) -> Forall (fun r => In r d) rows ->
  reindexed (timestamp_mask d today) (labels rows) = Some (map in_day rows).
Proof.
  intros Hnd. induction rows as [| r rows IH]; intros Hall; [reflexivity |].
  inversion Hall; subst. cbn [labels map reindexed].
  rewrite entries_of_unique by assumption.
  fold (labels rows). rewrite IH by assumption. reflexivity.
Qed.

Lemma true_counted (vals : list bool) :
  In true vals -> (1 <= List.length (filter (fun v => v) vals))%nat.
Proof.
  induction vals as [| v vals IH]; [contradiction |].
  intros [-> | Hin]; cbn [filter].
  - cbn. lia.
  - specialize (IH Hin). destruct v; cbn [List.length]; lia.
Qed.

Lemma reindexed_counts (d rows : DataFrame) (vals : list bool) :
  Forall (fun r => In r d) rows ->
  reindexed (timestamp_mask d today) (labels rows) = Some vals ->
  (List.length (filter in_day rows)
   <= List.length (filter (fun v => v) vals))%nat.
Proof.
  revert vals. induction rows as [| r rows IH]; intros vals Hall.
  - intros _. cbn. lia.
  - inversion Hall as [| ? ? Hr Hrows]; subst.
    cbn [labels map reindexed]. fold (labels rows).
    pose proof (entries_of_own d r Hr) as Hown.
    destruct (entries_of (label r) (timestamp_mask d today))
      as [| v vs] eqn:Hentries; [discriminate |].
    destruct (reindexed (timestamp_mask d today) (labels rows))
      as [rest |] eqn:Hrest; [| discriminate].
    intros H.
    assert (Hvals : vals = (v :: vs) ++ rest) by (inversion H; reflexivity).
    clear H. rewrite Hvals.
    specialize (IH rest Hrows eq_refl).
    rewrite filter_app, length_app.
    pose proof (true_counted (v :: vs)) as Htrue.
    cbn [filter] in *.
    destruct (in_day r) eqn:Hday; cbn [List.length].
    + specialize (Htrue Hown). lia.
    + lia.
Qed.

Lemma rows_of_user_in (d : DataFrame) (u : Z) :
  Forall (fun r => In r d) (rows_of_user d u).
Proof.
  apply Forall_forall. intros r Hr. unfold rows_of_user in Hr.
  apply filter_In in Hr. tauto.
Qed.

Lemma filter_filter_le (A : Type) (f g : A -> bool) (l : list A) :
  (List.length (filter f (filter g l)) <= List.length (filter f l))%nat.
Proof.
  induction l as [| x l IH]; [cbn; lia |].
  cbn [filter]. destruct (g x); cbn [filter]; destruct (f x);
    cbn [List.length]; lia.
Qed.

(** Whenever the quota line returns, it returns at least the number of
    rows of the user since [today]. *)
Lemma quota_never_undercounts (d : DataFrame) (u : Z) (n : Z) :
  number_of_requests_per_day d u today = inr n ->
  count_since d u today <= n.
Proof.
  unfold number_of_requests_per_day, getitem_bool, check_bool_indexer.
  rewrite count_since_rows_of_user, timestamp_mask_labels,
    timestamp_mask_values.
  destruct (index_equals (labels d) (labels (rows_of_user d u))) eqn:Heq.
  - destruct (take (rows_of_user d u) (nonzero (map in_day d)))
      as [e | sel] eqn:Htake; [discriminate |].
    intros H. inversion H; subst. clear H.
    apply take_length in Htake. rewrite Htake.
    unfold nonzero. rewrite nonzero_from_length.
    assert (Hmap : List.length (filter (fun v => v) (map in_day d))
                   = List.length (filter in_day d)).
    { clear. induction d as [| r d IH]; [reflexivity |].
      cbn [map filter]. destruct (in_day r); cbn [List.length]; lia. }
    rewrite Hmap.
    pose proof (filter_filter_le Row in_day (fun r => hashed_user r =? u) d).
    unfold rows_of_user. lia.
  - destruct (reindexed (timestamp_mask d today)
                (labels (rows_of_user d u))) as [vals |] eqn:Hre;
      [| discriminate].
    destruct (take (rows_of_user d u) (nonzero vals))
      as [e | sel] eqn:Htake; [discriminate |].
    intros H. inversion H; subst. clear H.
    apply take_length in Htake. rewrite Htake.
    unfold nonzero. rewrite nonzero_from_length.
    pose proof (reindexed_counts d (rows_of_user d u) vals
                  (rows_of_user_in d u) Hre).
    lia.
Qed.

(** On an aligned frame the quota line returns the number of rows of the
    user since [today]. *)
Lemma quota_exact_when_aligned (d : DataFrame) (u : Z) :
  aligned d u ->
  number_of_requests_per_day d u today = inr (count_since d u today).
Proof.
  intros Haligned.
  assert (Hwhole : rows_of_user d u = d ->
                   number_of_requests_per_day d u today
                   = inr (count_since d u today)).
  { intros Hall.
    unfold number_of_requests_per_day, getitem_bool, check_bool_indexer.
    rewrite count_since_rows_of_user, timestamp_mask_labels,
      timestamp_mask_values, Hall.
    replace (index_equals (labels d) (labels d)) with true
      by (symmetry; apply index_equals_eq; reflexivity).
    unfold nonzero.
    pose proof (take_nonzero_map in_day [] d) as Htake.
    change (take d (nonzero_from 0 (map in_day d)) = inr (filter in_day d))
      in Htake.
    rewrite Htake. reflexivity. }
  destruct Haligned as [Hnd | Hall]; [| exact (Hwhole Hall)].
  destruct (index_equals (labels d) (labels (rows_of_user d u))) eqn:Heq.
  - apply Hwhole. apply index_equals_eq in Heq.
    unfold rows_of_user. apply filter_whole.
    apply (f_equal (@List.length Z)) in Heq.
    unfold labels in Heq. rewrite !length_map in Heq.
    unfold rows_of_user in Heq. lia.
  - unfold number_of_requests_per_day, getitem_bool, check_bool_indexer.
    rewrite count_since_rows_of_user, timestamp_mask_labels, Heq.
    rewrite (reindexed_unique d (rows_of_user d u) Hnd (rows_of_user_in d u)).
    unfold nonzero.
    pose proof (take_nonzero_map in_day [] (rows_of_user d u)) as Htake.
    change (take (rows_of_user d u)
              (nonzero_from 0 (map in_day (rows_of_user d u)))
            = inr (filter in_day (rows_of_user d u))) in Htake.
    rewrite Htake. reflexivity.
Qed.

End QuotaLine.

Lemma range_index_from_labels (i : Z) (rows : list Row) (l : Z) :
  In l (labels (range_index_from i rows)) -> i <= l.
Proof.
  revert i. induction rows as [| r rows IH]; intros i; [contradiction |].
  cbn [range_index_from labels map label]. intros [<- | Hin]; [lia |].
  specialize (IH (i + 1) Hin). lia.
Qed.

(** The frame read at start-up has no label twice. *)
Lemma initial_df_aligned (file : option (list Row)) (u : Z) :
  aligned (initial_df file) u.
Proof.
  left. destruct file as [rows |]; [| constructor].
  unfold initial_df. generalize 0.
  induction rows as [| r rows IH]; intros i; [constructor |].
  cbn [range_index_from labels map label]. constructor.
  - intros Hin. apply range_index_from_labels in Hin. lia.
  - apply IH.
Qed.

(* ------------------------------------------------------------------ *)
(** ** The branches of the admission check *)

Lemma prompt_test_empty (p : str) :
  (Z.of_nat (List.length p) =? 0) || str_eqb p [] = true <-> p = [].
Proof.
  destruct p as [| c r].
  - cbn. tauto.
  - split; [| discriminate].
    intros H. apply orb_true_iff in H. destruct H as [H | H].
    + apply Z.eqb_eq in H. cbn [List.length] in H. lia.
    + discriminate.
Qed.

Lemma check_too_soon (dev : Z) (update : Update) (p : str) (w : World)
    (d : DataFrame) :
  ~ passes_interval d update w ->
  run (check_if_prompt_empty_and_message_not_too_early dev update p) w d =
  (Return EMPTY_MESSAGE,
   {| df := d;
      calls := [send_message (chat_id update)
                  (too_early_text
                     (seconds_diff d (user_of update) (datetime_now w))) false];
      outcome := Some (TooSoon
                   (min_requests_delay
                    - seconds_diff d (user_of update) (datetime_now w))) |}).
Proof.
  unfold passes_interval, user_of. intros Hlt.
  unfold run, check_if_prompt_empty_and_message_not_too_early. unfold_py.
  destruct (Z.ltb_spec (seconds_diff d (hash (from_user_id update)) (datetime_now w))
              min_requests_delay) as [_ | Hge]; [reflexivity | lia].
Qed.

Lemma check_quota_raises (dev : Z) (update : Update) (p : str) (w : World)
    (d : DataFrame) (e : PandasError) :
  passes_interval d update w ->
  number_of_requests_per_day d (user_of update) (date_today w) = inl e ->
  run (check_if_prompt_empty_and_message_not_too_early dev update p) w d =
  (Raise (pandas_exception w e),
   {| df := d; calls := []; outcome := None |}).
Proof.
  unfold passes_interval, user_of. intros Hint Hnum.
  unfold run, check_if_prompt_empty_and_message_not_too_early. unfold_py.
  destruct (Z.ltb_spec (seconds_diff d (hash (from_user_id update)) (datetime_now w))
              min_requests_delay) as [Hlt | _]; [lia |].
  rewrite Hnum. reflexivity.
Qed.

Lemma check_quota_exceeded (dev : Z) (update : Update) (p : str) (w : World)
    (d : DataFrame) (n : Z) :
  passes_interval d update w ->
  number_of_requests_per_day d (user_of update) (date_today w) = inr n ->
  max_images_per_day < n ->
  run (check_if_prompt_empty_and_message_not_too_early dev update p) w d =
  (Return EMPTY_MESSAGE,
   {| df := d;
      calls := [send_message (chat_id update) limit_text false];
      outcome := Some QuotaExceeded |}).
Proof.
  unfold passes_interval, user_of. intros Hint Hnum Hquota.
  unfold run, check_if_prompt_empty_and_message_not_too_early. unfold_py.
  destruct (Z.ltb_spec (seconds_diff d (hash (from_user_id update)) (datetime_now w))
              min_requests_delay) as [Hlt | _]; [lia |].
  rewrite Hnum. rewrite Z.gtb_ltb.
  destruct (Z.ltb_spec max_images_per_day n) as [_ | Hle];
    [reflexivity | lia].
Qed.

Lemma check_prompt_required (dev : Z) (update : Update) (w : World)
    (d : DataFrame) :
  passes_interval d update w ->
  passes_quota d update w ->
  run (check_if_prompt_empty_and_message_not_too_early dev update []) w d =
  (Return EMPTY_MESSAGE,
   {| df := d;
      calls := [send_message (chat_id update) ask_prompt_text false];
      outcome := Some PromptRequired |}).
Proof.
  unfold passes_interval, passes_quota, user_of. intros Hint [n [Hnum Hquota]].
  unfold run, check_if_prompt_empty_and_message_not_too_early. unfold_py.
  destruct (Z.ltb_spec (seconds_diff d (hash (from_user_id update)) (datetime_now w))
              min_requests_delay) as [Hlt | _]; [lia |].
  rewrite Hnum. rewrite Z.gtb_ltb.
  destruct (Z.ltb_spec max_images_per_day n) as [Hlt | _];
    [lia | reflexivity].
Qed.

Lemma check_admitted (dev : Z) (update : Update) (p : str) (w : World)
    (d : DataFrame) :
  passes_interval d update w ->
  passes_quota d update w ->
  p <> [] ->
  run (check_if_prompt_empty_and_message_not_too_early dev update p) w d =
  run (generate dev update p (chat_id update) (datetime_now w)
         (user_of update) generate_default_size) w d.
Proof.
  unfold passes_interval, passes_quota, user_of. intros Hint [n [Hnum Hquota]] Hp.
  unfold run, check_if_prompt_empty_and_message_not_too_early.
  unfold bind at 1, get_df at 1, bind at 1, ask at 1.
  cbn [df calls outcome fst snd negb].
  destruct (Z.ltb_spec (seconds_diff d (hash (from_user_id update)) (datetime_now w))
              min_requests_delay) as [Hlt | _]; [lia |].
  rewrite Hnum. rewrite Z.gtb_ltb.
  destruct (Z.ltb_spec max_images_per_day n) as [Hlt | _]; [lia |].
  destruct ((Z.of_nat (List.length p) =? 0) || str_eqb p []) eqn:Hempty.
  - apply prompt_test_empty in Hempty. contradiction.
  - reflexivity.
Qed.

(** The five ways through the admission check. *)
Lemma check_cases (dev : Z) (update : Update) (p : str) (w : World)
    (d : DataFrame) :
  let r := run (check_if_prompt_empty_and_message_not_too_early
                  dev update p) w d in
  (~ passes_interval d update w /\
   r = (Return EMPTY_MESSAGE,
        {| df := d;
           calls := [send_message (chat_id update)
                       (too_early_text
                          (seconds_diff d (user_of update) (datetime_now w)))
                       false];
           outcome := Some (TooSoon
                        (min_requests_delay
                         - seconds_diff d (user_of update)
                             (datetime_now w))) |})) \/
  (passes_interval d update w /\
   exists e,
     number_of_requests_per_day d (user_of update) (date_today w) = inl e /\
     r = (Raise (pandas_exception w e),
          {| df := d; calls := []; outcome := None |})) \/
  (passes_interval d update w /\
   exists n,
     number_of_requests_per_day d (user_of update) (date_today w) = inr n /\
     max_images_per_day < n /\
     r = (Return EMPTY_MESSAGE,
          {| df := d;
             calls := [send_message (chat_id update) limit_text false];
             outcome := Some QuotaExceeded |})) \/
  (passes_interval d update w /\ passes_quota d update w /\ p = [] /\
   r = (Return EMPTY_MESSAGE,
        {| df := d;
           calls := [send_message (chat_id update) ask_prompt_text false];
           outcome := Some PromptRequired |})) \/
  (passes_interval d update w /\ passes_quota d update w /\ p <> [] /\
   r = run (generate dev update p (chat_id update) (datetime_now w)
              (user_of update) generate_default_size) w d).
Proof.
  cbv zeta.
  destruct (Z_le_dec min_requests_delay
              (seconds_diff d (user_of update) (datetime_now w)))
    as [Hint | Hint].
  - right.
    destruct (number_of_requests_per_day d (user_of update) (date_today w))
      as [e | n] eqn:Hnum.
    + left. split; [exact Hint |]. exists e. split; [reflexivity |].
      apply check_quota_raises; assumption.
    + right.
      destruct (Z_lt_dec max_images_per_day n) as [Hover | Hunder].
      * left. split; [exact Hint |]. exists n.
        split; [reflexivity |]. split; [exact Hover |].
        apply (check_quota_exceeded dev update p w d n); assumption.
      * right.
        assert (Hq : passes_quota d update w).
        { exists n. split; [exact Hnum | lia]. }
        destruct p as [| c p'].
        -- left. repeat split; try assumption.
           apply check_prompt_required; assumption.
        -- right. repeat split; try assumption; try discriminate.
           apply check_admitted; (assumption || discriminate).
  - left. split; [exact Hint |]. apply check_too_soon. exact Hint.
Qed.

(** The data frame after [generate], and the calls it made, for every
    answer of the outside world. *)
Lemma generate_effects (dev : Z) (update : Update) (p : str) (chat : Z)
    (now : datetime) (sz : Z) (w : World) (d : DataFrame) :
  let st := snd (run (generate dev update p chat now (user_of update) sz) w d) in
  let d' := d ++ [new_row update p now sz] in
  df st = d' /\
  calls st =
    calls_until_csv update chat d'
    ++ match to_csv_result w with
       | Some _ => []
       | None => calls_after_csv dev update p chat (user_of update) sz w
       end.
Proof.
  unfold run, calls_until_csv, calls_after_csv, new_row, is_group_of. unfold_py.
  destruct (chat_type update) as [t |]; unfold_py;
    (destruct (to_csv_result w) as [e |]; unfold_py; [split; reflexivity |]);
    (destruct (moderation_flagged w p) as [e | [|]]; unfold_py;
     [destruct (exn_class e); unfold_py; split; reflexivity
     | split; reflexivity
     | ]);
    match goal with
    | |- context [image_url ?w ?a ?b ?c ?u] =>
        destruct (image_url w a b c u) as [e | url]; unfold_py;
        [destruct (exn_class e); unfold_py; split; reflexivity
        | split; reflexivity]
    end.
Qed.

Lemma generate_result (dev : Z) (update : Update) (p : str) (chat : Z)
    (now : datetime) (user sz : Z) (w : World) (d : DataFrame) :
  let r := run (generate dev update p chat now user sz) w d in
  match fst r with
  | Return s =>
      s = MESSAGE /\
      (outcome (snd r) = Some Blocked \/
       outcome (snd r) = Some Delivered \/
       outcome (snd r) = Some ProviderError)
  | Raise _ => outcome (snd r) = None
  end.
Proof.
  unfold run. unfold_py.
  destruct (chat_type update) as [t |]; unfold_py;
    (destruct (to_csv_result w) as [e |]; unfold_py; [reflexivity |]);
    (destruct (moderation_flagged w p) as [e | [|]]; unfold_py;
     [destruct (exn_class e); unfold_py; first [reflexivity | auto]
     | auto
     | ]);
    match goal with
    | |- context [image_url ?w ?a ?b ?c ?u] =>
        destruct (image_url w a b c u) as [e | url]; unfold_py;
        [destruct (exn_class e); unfold_py; first [reflexivity | auto]
        | auto]
    end.
Qed.

Ltac check_by_cases dev update p w d :=
  let H := fresh "Hcases" in
  let Hr := fresh "Hcheck" in
  pose proof (check_cases dev update p w d) as H; cbv zeta in H;
  destruct H as [[?Hint Hr]
                | [[?Hint [?e [?Hnum Hr]]]
                  | [[?Hint [?n [?Hnum [?Hover Hr]]]]
                    | [[?Hint [?Hq [?Hp Hr]]]
                      | [?Hint [?Hq [?Hp Hr]]]]]]];
  rewrite Hr; clear Hr.

Lemma check_result (dev : Z) (update : Update) (p : str) (w : World)
    (d : DataFrame) :
  let r := run (check_if_prompt_empty_and_message_not_too_early dev update p) w d in
  match fst r with
  | Return s => exists o, outcome (snd r) = Some o /\ s = next_state o
  | Raise _ => outcome (snd r) = None
  end.
Proof.
  cbv zeta. check_by_cases dev update p w d.
  - cbn. eexists; split; reflexivity.
  - reflexivity.
  - cbn. eexists; split; reflexivity.
  - cbn. eexists; split; reflexivity.
  - pose proof (generate_result dev update p (chat_id update)
                  (datetime_now w) (user_of update) generate_default_size
                  w d) as Hg.
    cbv zeta in Hg.
    destruct (run _ w d) as [[s | e] st]; cbn [fst snd] in *;
      [| exact Hg].
    destruct Hg as [-> [Ho | [Ho | Ho]]]; rewrite Ho;
      eexists; split; reflexivity.
Qed.

(** The error handler logs, sends its report and then returns or raises
    as the send does; it leaves the frame and the outcome label alone. *)
Lemma error_handler_run (dev : Z) (e : Exn) (w : World) (s : St) :
  error_handler dev e w s =
  (match error_report_result w with
   | None => Return MESSAGE
   | Some e' => Raise e'
   end,
   {| df := df s;
      calls := (calls s ++ [logger_error])
               ++ [send_message dev (error_text (exn_traceback e)) true];
      outcome := outcome s |}).
Proof.
  unfold_py. destruct (error_report_result w); reflexivity.
Qed.

(** What [process_update] does with the callback [h] it selected. *)
Lemma process_update_callback (dev : Z) (cst : option State)
    (update : Update) (h : M State) (w : World) (d : DataFrame) :
  conv_handler dev cst update = Some h ->
  run (process_update dev cst update) w d =
  match run h w d with
  | (Return s, st) => (Return (Some s), st)
  | (Raise e, st) =>
      (Return cst,
       {| df := df st;
          calls := (calls st ++ [logger_error])
                   ++ [send_message dev (error_text (exn_traceback e)) true];
          outcome := outcome st |})
  end.
Proof.
  intros Hh. unfold run, process_update. rewrite Hh.
  unfold try_except at 1. unfold bind at 1, ret at 1.
  destruct (h w _) as [[s | e] st]; [reflexivity |].
  unfold try_except, bind. rewrite error_handler_run.
  destruct (error_report_result w); reflexivity.
Qed.

(** The callbacks [conv_handler] can select. *)
Lemma conv_handler_cases (dev : Z) (cst : option State) (update : Update)
    (h : M State) :
  conv_handler dev cst update = Some h ->
  h = generate_from_command dev update \/
  h = generate_from_message dev update \/
  h = start update \/
  h = cancel update.
Proof.
  unfold conv_handler.
  destruct cst as [[|] |];
    destruct (is_text update);
    destruct (is_command "generate" update);
    destruct (is_command "start" update);
    destruct (is_command "cancel" update);
    intros H; inversion H; auto.
Qed.

(* ------------------------------------------------------------------ *)
(** ** Runs of the model *)

Example str_of_int_256 : str_of_int 256 = lit "256".
Proof. reflexivity. Qed.

Example strip_a_cat : strip (lit "  a cat ") = lit "a cat".
Proof. reflexivity. Qed.

Example default_last_datetime_days :
  days_from_civil 2022 1 1 = 18993 /\
  default_last_datetime = 1640995200 * us_per_second.
Proof. split; reflexivity. Qed.

Example escape_tag : html_escape (lit "<a&b>") = lit "&lt;a&amp;b&gt;".
Proof. reflexivity. Qed.

(** A first request at noon goes all the way to the two photos. *)
Example first_request_at_noon_delivered :
  run (generate_from_command Sample.developer Sample.generate_cat)
      (Sample.world Sample.noon) []
  = (Return MESSAGE,
     {| df := [new_row Sample.generate_cat (lit "a cat") Sample.noon 256];
        calls :=
          [send_chat_action 7;
           to_csv [new_row Sample.generate_cat (lit "a cat") Sample.noon 256];
           Moderation_create (lit "a cat");
           Image_create (lit "a cat") 1 (lit "256x256") (lit "123456789");
           send_photo 7 (lit "https://img.example/1.png") (lit "a cat");
           send_photo 99 (lit "https://img.example/1.png")
             (lit "single user: a cat")];
        outcome := Some Delivered |}).
Proof. vm_compute. reflexivity. Qed.

(* ------------------------------------------------------------------ *)
(** ** C1: the first request of a new user *)

(** With no row for the user, a request in the first minute after
    midnight is answered "too soon": the gap is the time of day. *)
Lemma new_user_first_minute_too_soon (dev : Z) (update : Update) (p : str)
    (w : World) (d : DataFrame) :
  rows_of_user d (user_of update) = [] ->
  (datetime_now w / us_per_second) mod seconds_per_day < min_requests_delay ->
  outcome (snd (run (check_if_prompt_empty_and_message_not_too_early
                       dev update p) w d))
  = Some (TooSoon (min_requests_delay
                   - (datetime_now w / us_per_second) mod seconds_per_day)).
Proof.
  intros Hnone Hearly.
  rewrite check_too_soon.
  - cbn [snd outcome]. rewrite seconds_diff_new_user by assumption. reflexivity.
  - unfold passes_interval. rewrite seconds_diff_new_user by assumption. lia.
Qed.

(** C1 (the code departs from the claim): a user with no row in the
    ledger who sends [/generate a cat] on 2022-11-05 at 00:00:30 is
    answered "too soon, try again in 30 seconds"; nothing is recorded and
    the provider is not called. *)
Theorem first_request_after_midnight_rejected :
  run (generate_from_command Sample.developer Sample.generate_cat)
      (Sample.world (mk_datetime 2022 11 5 0 0 30 0)) []
  = (Return EMPTY_MESSAGE,
     {| df := [];
        calls := [send_message 7 (too_early_text 30) false];
        outcome := Some (TooSoon 30) |}).
Proof. vm_compute. reflexivity. Qed.

(* ------------------------------------------------------------------ *)
(** ** C2: outcome and conversation state *)

(** C2 (as stated, refuted): it is not the case that every outcome other
    than [PromptRequired] leaves the conversation awaiting a command; a
    request rejected as too soon moves it to [EMPTY_MESSAGE]. *)
Lemma too_soon_awaits_prompt :
  ~ (forall dev cst update w d o,
        outcome (snd (run (process_update dev cst update) w d)) = Some o ->
        fst (run (process_update dev cst update) w d)
        = Return (Some (spec_next_state o))).
Proof.
  intros H.
  specialize (H Sample.developer None Sample.generate_cat
                (Sample.world (mk_datetime 2022 11 5 12 0 30 0))
                [Sample.row_at Sample.noon] (TooSoon 30)).
  assert (Hrun : outcome (snd (run (process_update Sample.developer None
                                      Sample.generate_cat)
                                 (Sample.world (mk_datetime 2022 11 5 12 0 30 0))
                                 [Sample.row_at Sample.noon]))
                 = Some (TooSoon 30)) by (vm_compute; reflexivity).
  specialize (H Hrun). vm_compute in H. discriminate H.
Qed.

(** C2 (amended): whenever processing an update reaches an outcome, the
    conversation state afterwards is [EMPTY_MESSAGE] for [TooSoon],
    [QuotaExceeded] and [PromptRequired], and [MESSAGE] for [Blocked],
    [Delivered] and [ProviderError]. *)
Theorem outcome_decides_conversation_state (dev : Z) (cst : option State)
    (update : Update) (w : World) (d : DataFrame) (o : Outcome) :
  outcome (snd (run (process_update dev cst update) w d)) = Some o ->
  fst (run (process_update dev cst update) w d) = Return (Some (next_state o)).
Proof.
  destruct (conv_handler dev cst update) as [h |] eqn:Hh.
  - rewrite (process_update_callback _ _ _ _ _ _ Hh).
    destruct (conv_handler_cases _ _ _ _ Hh) as [-> | [-> | [-> | ->]]].
    + unfold generate_from_command.
      pose proof (check_result dev update
                    (strip (join (lit " ") (context_args update))) w d) as Hr.
      cbv zeta in Hr.
      destruct (run _ w d) as [[s | e] st]; cbn [fst snd outcome] in *.
      * destruct Hr as [o' [Ho' ->]]. intros Ho. congruence.
      * intros Ho. congruence.
    + unfold generate_from_message.
      pose proof (check_result dev update (strip (message_text update)) w d) as Hr.
      cbv zeta in Hr.
      destruct (run _ w d) as [[s | e] st]; cbn [fst snd outcome] in *.
      * destruct Hr as [o' [Ho' ->]]. intros Ho. congruence.
      * intros Ho. congruence.
    + cbn. discriminate.
    + cbn. discriminate.
  - unfold run, process_update. rewrite Hh. cbn. discriminate.
Qed.

Lemma outcome_decides_conversation_state_witness :
  fst (run (process_update Sample.developer (Some MESSAGE) Sample.generate_nothing)
         (Sample.world Sample.noon) [])
  = Return (Some (next_state PromptRequired)).
Proof.
  apply (outcome_decides_conversation_state Sample.developer (Some MESSAGE)
           Sample.generate_nothing (Sample.world Sample.noon) [] PromptRequired).
  vm_compute. reflexivity.
Defined.

(* ------------------------------------------------------------------ *)
(** ** C3: the minimum delay between two requests *)

(** A request 59 seconds after the user's latest row is answered
    "try again in 1 seconds"; nothing is written and nobody is called. *)
Lemma second_request_after_59_seconds (dev : Z) (update : Update) (p : str)
    (w : World) (d : DataFrame) (t : datetime) :
  max_datetime_for_user d (user_of update) = t ->
  datetime_now w = t + 59 * us_per_second ->
  run (check_if_prompt_empty_and_message_not_too_early dev update p) w d =
  (Return EMPTY_MESSAGE,
   {| df := d;
      calls := [send_message (chat_id update) (too_early_text 59) false];
      outcome := Some (TooSoon 1) |}).
Proof.
  intros Hmax Hnow.
  assert (Hsd : seconds_diff d (user_of update) (datetime_now w) = 59).
  { unfold seconds_diff. rewrite Hmax, Hnow.
    rewrite timedelta_seconds_within_day by (vm_compute; split; congruence).
    reflexivity. }
  rewrite check_too_soon.
  - rewrite Hsd. reflexivity.
  - unfold passes_interval. rewrite Hsd. unfold min_requests_delay. lia.
Qed.

(** X5: from 60 seconds up to one day after the latest row of the user,
    the delay check passes. *)
Lemma request_within_a_day_passes_interval (d : DataFrame) (update : Update)
    (w : World) (t g : Z) :
  max_datetime_for_user d (user_of update) = t ->
  datetime_now w = t + g ->
  min_requests_delay * us_per_second <= g < us_per_day ->
  passes_interval d update w.
Proof.
  intros Hmax Hnow Hg. unfold passes_interval, seconds_diff.
  rewrite Hmax, Hnow.
  change (min_requests_delay * us_per_second) with 60000000 in Hg.
  rewrite timedelta_seconds_within_day by lia.
  change min_requests_delay with 60. change us_per_second with 1000000.
  apply Z.div_le_lower_bound; lia.
Qed.

(** X6: whole days between the latest row of the user and the request do
    not count: the computed gap is the same [k] days later. *)
Lemma request_days_later_judged_by_time_of_day (d : DataFrame)
    (update : Update) (t g k : Z) :
  max_datetime_for_user d (user_of update) = t ->
  seconds_diff d (user_of update) (t + g + k * us_per_day)
  = seconds_diff d (user_of update) (t + g).
Proof.
  intros Hmax. unfold seconds_diff. rewrite Hmax.
  apply timedelta_seconds_drops_days.
Qed.

(** C3 (the code departs from the claim): with one accepted request at
    2022-11-05 12:00:00, the same user's request at 2022-11-06 12:00:30,
    one day and 30 seconds later, is answered "too soon, try again in 30
    seconds"; nothing is recorded and the provider is not called. *)
Theorem request_one_day_later_rejected :
  run (generate_from_command Sample.developer Sample.generate_cat)
      (Sample.world (mk_datetime 2022 11 6 12 0 30 0))
      [Sample.row_at Sample.noon]
  = (Return EMPTY_MESSAGE,
     {| df := [Sample.row_at Sample.noon];
        calls := [send_message 7 (too_early_text 30) false];
        outcome := Some (TooSoon 30) |}).
Proof. vm_compute. reflexivity. Qed.

(* ------------------------------------------------------------------ *)
(** ** C4: the row is written before the provider is called *)

Lemma calls_until_csv_no_provider (update : Update) (chat : Z) (d : DataFrame) :
  forallb (fun c => negb (is_provider_call c))
    ([send_chat_action chat]
     ++ match chat_type update with Some _ => [] | None => [logger_error] end)
  = true.
Proof. destruct (chat_type update); reflexivity. Qed.

Lemma count_since_app (d : DataFrame) (r : Row) (u : Z) (today : datetime) :
  count_since (d ++ [r]) u today
  = count_since d u today
    + (if (hashed_user r =? u) && (today <=? timestamp r) then 1 else 0).
Proof.
  unfold count_since. rewrite filter_app, length_app. cbn [filter].
  destruct ((hashed_user r =? u) && (today <=? timestamp r));
    cbn [List.length]; lia.
Qed.

Lemma count_since_after_append (d : DataFrame) (update : Update)
    (p : str) (now today : datetime) (sz : Z) :
  today <= now ->
  count_since (d ++ [new_row update p now sz]) (user_of update) today
  = count_since d (user_of update) today + 1.
Proof.
  intros Htoday. rewrite count_since_app.
  cbn [new_row hashed_user timestamp].
  rewrite Z.eqb_refl. apply Z.leb_le in Htoday. rewrite Htoday. reflexivity.
Qed.

(** C4: [generate] runs only for a request that passed the delay check
    and the quota check with a non-empty prompt (line 165).  For every
    run of it, whatever the outside world answers: the new row is in
    [df]; the call log is [before ++ to_csv df :: after] where [before]
    holds no provider call and the written frame already has the new
    row; when the write succeeds the next call is the moderation request,
    and when it raises no further call is made; and the row counts for
    the user from then on: the user has one more row since [today], and
    the quota line, whenever it returns on the new frame, returns at
    least that number. *)
Theorem row_written_before_provider_calls (dev : Z) (update : Update)
    (p : str) (chat : Z) (now : datetime) (w : World) (d : DataFrame) :
  let st := snd (run (generate dev update p chat now (user_of update) 256)
                   w d) in
  let d' := d ++ [new_row update p now 256] in
  df st = d' /\
  (exists before after,
      calls st = before ++ to_csv d' :: after /\
      forallb (fun c => negb (is_provider_call c)) before = true /\
      (to_csv_result w = None ->
       exists rest, after = Moderation_create p :: rest) /\
      (to_csv_result w <> None -> after = [])) /\
  (forall today, today <= now ->
     count_since (df st) (user_of update) today
     = count_since d (user_of update) today + 1 /\
     forall n,
       number_of_requests_per_day (df st) (user_of update) today = inr n ->
       count_since d (user_of update) today + 1 <= n).
Proof.
  cbv zeta.
  pose proof (generate_effects dev update p chat now 256 w d) as [Hdf Hcalls].
  rewrite Hdf. split; [reflexivity |]. split.
  - exists ([send_chat_action chat]
            ++ match chat_type update with
               | Some _ => []
               | None => [logger_error]
               end).
    exists (match to_csv_result w with
            | Some _ => []
            | None => calls_after_csv dev update p chat (user_of update) 256 w
            end).
    split; [| split; [| split]].
    + rewrite Hcalls. unfold calls_until_csv.
      rewrite <- !app_assoc. reflexivity.
    + apply calls_until_csv_no_provider. exact d.
    + intros Hok. rewrite Hok. unfold calls_after_csv. eexists. reflexivity.
    + intros Hfail. destruct (to_csv_result w); [reflexivity | congruence].
  - intros today Htoday.
    pose proof (count_since_after_append d update p now today 256 Htoday)
      as Hcount.
    split; [exact Hcount |].
    intros n Hn. apply quota_never_undercounts in Hn. lia.
Qed.

(* ------------------------------------------------------------------ *)
(** ** C5: the daily quota *)

(** On an aligned frame (no label twice, or every row the sender's) the
    quota rule is as specified: a request that passes the delay check is
    answered "limit reached" exactly when the sender has more than 5 rows
    since [today], and then nothing is recorded and nobody else is
    called. *)
Lemma quota_rejects_above_five_when_aligned (dev : Z) (update : Update)
    (p : str) (w : World) (d : DataFrame) :
  aligned d (user_of update) ->
  passes_interval d update w ->
  let r := run (check_if_prompt_empty_and_message_not_too_early
                  dev update p) w d in
  (outcome (snd r) = Some QuotaExceeded <->
   5 < count_since d (user_of update) (date_today w)) /\
  (outcome (snd r) = Some QuotaExceeded ->
   r = (Return EMPTY_MESSAGE,
        {| df := d;
           calls := [send_message (chat_id update) limit_text false];
           outcome := Some QuotaExceeded |})).
Proof.
  intros Haligned Hpass. cbv zeta.
  pose proof (quota_exact_when_aligned (date_today w) d (user_of update)
                Haligned) as Hexact.
  check_by_cases dev update p w d.
  - contradiction.
  - congruence.
  - assert (n = count_since d (user_of update) (date_today w)) by congruence.
    subst n. change max_images_per_day with 5 in Hover.
    cbn [snd outcome]. split; [tauto | reflexivity].
  - destruct Hq as [n [Hnum Hle]].
    assert (n = count_since d (user_of update) (date_today w)) by congruence.
    subst n. change max_images_per_day with 5 in Hle.
    cbn [snd outcome].
    split; [split; [discriminate | lia] | discriminate].
  - destruct Hq as [n [Hnum Hle]].
    assert (n = count_since d (user_of update) (date_today w)) by congruence.
    subst n. change max_images_per_day with 5 in Hle.
    assert (Hnot : outcome (snd (run (generate dev update p (chat_id update)
                                        (datetime_now w) (user_of update)
                                        generate_default_size) w d))
                   <> Some QuotaExceeded).
    { pose proof (generate_result dev update p (chat_id update)
                    (datetime_now w) (user_of update) generate_default_size
                    w d) as Hg.
      cbv zeta in Hg.
      destruct (run _ w d) as [[s | e] st]; cbn [fst snd] in *.
      - destruct Hg as [_ [Ho | [Ho | Ho]]]; rewrite Ho; discriminate.
      - rewrite Hg. discriminate. }
    split; [split; [contradiction | lia] | contradiction].
Qed.

(** The frame of C5 arises in use: the CSV file holds six requests of
    Alice of that day, the bot is started, and Bob's request is
    recorded. *)
Example frame_after_restart_and_bob :
  df (snd (run (process_update Sample.developer None Sample2.bob_generate)
             (Sample.world (mk_datetime 2022 11 5 11 0 0 0))
             (initial_df (Some Sample2.six_rows_of_alice))))
  = initial_df (Some Sample2.six_rows_of_alice) ++ [Sample2.bob_row].
Proof. vm_compute. reflexivity. Qed.

(** C5 (the code departs from the claim): Alice has six rows of the day,
    labelled 0 to 5 by [read_csv], and Bob's row recorded since start-up
    has the label 0 again.  Alice's request at noon passes the delay
    check; the quota line then re-indexes its key by Alice's labels, gets
    seven values for six rows and raises [IndexError]: no "limit reached"
    answer is sent, nothing is recorded, and the handler raises. *)
Theorem quota_line_raises_on_repeated_labels :
  let d := initial_df (Some Sample2.six_rows_of_alice) ++ [Sample2.bob_row] in
  count_since d (hash Sample.alice) (start_of_day Sample.noon) = 6 /\
  labels d = [0; 1; 2; 3; 4; 5; 0] /\
  run (generate_from_command Sample.developer Sample.generate_cat)
      (Sample.world Sample.noon) d
  = (Raise (Sample.pandas_exn IndexError),
     {| df := d; calls := []; outcome := None |}).
Proof. cbv zeta. repeat split; vm_compute; reflexivity. Qed.

(* ------------------------------------------------------------------ *)
(** ** C6: a flagged prompt *)

(** C6: [generate] runs only for an admitted request (line 165).  For
    every run of it in which the CSV write succeeds and the moderation
    answer is flagged, it returns [MESSAGE] with outcome [Blocked]; after
    the moderation request it sends the fixed policy notice to the
    requester and the notice that quotes the prompt to the developer
    chat, and the call log holds no image request. *)
Theorem flagged_prompt_is_blocked (dev : Z) (update : Update) (p : str)
    (chat : Z) (now : datetime) (w : World) (d : DataFrame) :
  to_csv_result w = None ->
  moderation_flagged w p = inr true ->
  let r := run (generate dev update p chat now (user_of update) 256) w d in
  fst r = Return MESSAGE /\
  outcome (snd r) = Some Blocked /\
  calls (snd r) =
    calls_until_csv update chat (d ++ [new_row update p now 256])
    ++ [Moderation_create p;
        send_message chat policy_notice false;
        send_message dev
          (lit "This prompt doesn't comply with OpenAI's content policy: "
           ++ p ++ lit ".") false] /\
  existsb is_Image_create (calls (snd r)) = false.
Proof.
  intros Hok Hflag. cbv zeta.
  pose proof (generate_effects dev update p chat now 256 w d) as [_ Hcalls].
  rewrite Hok in Hcalls. unfold calls_after_csv in Hcalls.
  rewrite Hflag in Hcalls.
  split; [| split; [| split]].
  - unfold run. unfold_py.
    destruct (chat_type update); unfold_py; rewrite Hok; unfold_py;
      rewrite Hflag; reflexivity.
  - unfold run. unfold_py.
    destruct (chat_type update); unfold_py; rewrite Hok; unfold_py;
      rewrite Hflag; reflexivity.
  - rewrite Hcalls. reflexivity.
  - rewrite Hcalls. unfold calls_until_csv.
    destruct (chat_type update); reflexivity.
Qed.

Lemma flagged_prompt_is_blocked_witness :
  outcome (snd (run (generate Sample.developer Sample.generate_cat
                       (lit "a cat") 7 Sample.noon
                       (user_of Sample.generate_cat) 256)
                  (Sample.flagging_world Sample.noon) []))
  = Some Blocked.
Proof.
  refine (proj1 (proj2 (flagged_prompt_is_blocked Sample.developer
                          Sample.generate_cat (lit "a cat") 7 Sample.noon
                          (Sample.flagging_world Sample.noon) [] _ _))).
  - reflexivity.
  - reflexivity.
Defined.

(* ------------------------------------------------------------------ *)
(** ** C7: an empty prompt *)

Lemma lstrip_blank (s : str) :
  forallb isspace s = true -> lstrip s = [].
Proof.
  induction s as [| c r IH]; cbn [forallb lstrip]; [reflexivity |].
  intros H. apply andb_true_iff in H. destruct H as [Hc Hr].
  rewrite Hc. apply IH. exact Hr.
Qed.

Lemma strip_blank (s : str) :
  forallb isspace s = true -> strip s = [].
Proof.
  intros H. unfold strip, rstrip. rewrite (lstrip_blank s) by assumption.
  reflexivity.
Qed.

(** C7 (as stated, refuted): an empty prompt does not always give
    [PromptRequired]: sent 30 seconds after the user's latest row, a bare
    [/generate] is answered "too soon". *)
Lemma empty_prompt_too_soon :
  ~ (forall dev update w d,
        forallb isspace (join (lit " ") (context_args update)) = true ->
        outcome (snd (run (generate_from_command dev update) w d))
        = Some PromptRequired).
Proof.
  intros H.
  specialize (H Sample.developer Sample.generate_nothing
                (Sample.world (mk_datetime 2022 11 5 12 0 30 0))
                [Sample.row_at Sample.noon] eq_refl).
  vm_compute in H. discriminate H.
Qed.

(** C7 (amended): for a command or message whose prompt text is empty or
    all whitespace, the frame is unchanged and at most one call is made,
    a message to the requester (no CSV write, no provider call); every
    outcome reached is [TooSoon], [QuotaExceeded] or [PromptRequired] and
    comes with the return value [EMPTY_MESSAGE]; and the outcome is
    [PromptRequired] exactly when the request passes the delay check and
    the quota check. *)
Theorem blank_prompt_never_recorded (dev : Z) (update : Update) (w : World)
    (d : DataFrame) (h : M State) (raw : str) :
  (h = generate_from_command dev update /\
   raw = join (lit " ") (context_args update)) \/
  (h = generate_from_message dev update /\ raw = message_text update) ->
  forallb isspace raw = true ->
  let r := run h w d in
  df (snd r) = d /\
  (calls (snd r) = [] \/
   exists text, calls (snd r) = [send_message (chat_id update) text false]) /\
  (forall o, outcome (snd r) = Some o ->
     fst r = Return EMPTY_MESSAGE /\
     (o = PromptRequired \/ o = QuotaExceeded \/ exists n, o = TooSoon n)) /\
  (outcome (snd r) = Some PromptRequired <->
   passes_interval d update w /\ passes_quota d update w).
Proof.
  intros Hh Hblank. cbv zeta.
  assert (Hrun : run h w d =
                 run (check_if_prompt_empty_and_message_not_too_early
                        dev update []) w d).
  { destruct Hh as [[-> ->] | [-> ->]].
    - unfold generate_from_command. rewrite strip_blank by assumption.
      reflexivity.
    - unfold generate_from_message. rewrite strip_blank by assumption.
      reflexivity. }
  rewrite Hrun.
  check_by_cases dev update (@nil char) w d; cbn [fst snd df calls outcome].
  - split; [reflexivity |]. split; [right; eexists; reflexivity |].
    split.
    + intros o Ho. inversion Ho. split; [reflexivity |].
      right. right. eexists. reflexivity.
    + split; [discriminate | tauto].
  - split; [reflexivity |]. split; [left; reflexivity |].
    split; [discriminate |].
    split; [discriminate |].
    intros [_ [n [Hn _]]]. congruence.
  - split; [reflexivity |]. split; [right; eexists; reflexivity |].
    split.
    + intros o Ho. inversion Ho. split; [reflexivity |]. auto.
    + split; [discriminate |].
      intros [_ [n' [Hn' Hle]]].
      assert (n' = n) by congruence. subst n'. lia.
  - split; [reflexivity |]. split; [right; eexists; reflexivity |].
    split.
    + intros o Ho. inversion Ho. split; [reflexivity |]. auto.
    + tauto.
  - contradiction.
Qed.

Lemma blank_prompt_never_recorded_witness :
  df (snd (run (generate_from_command Sample.developer Sample.generate_nothing)
             (Sample.world (mk_datetime 2022 11 5 12 0 30 0))
             [Sample.row_at Sample.noon]))
  = [Sample.row_at Sample.noon].
Proof.
  refine (proj1 (blank_prompt_never_recorded Sample.developer
                   Sample.generate_nothing
                   (Sample.world (mk_datetime 2022 11 5 12 0 30 0))
                   [Sample.row_at Sample.noon]
                   (generate_from_command Sample.developer
                      Sample.generate_nothing)
                   [] _ _)).
  - left. split; reflexivity.
  - reflexivity.
Defined.

(* ------------------------------------------------------------------ *)
(** ** C8: what is stored for the user *)

(** C8 (the code departs from the claim): [hash] of an [int] user id is
    the id itself, so the row stored for the Telegram user 123456789, and
    the frame written to the CSV file, carry the raw id. *)
Theorem raw_user_id_is_stored :
  let r := run (generate_from_command Sample.developer Sample.generate_cat)
             (Sample.world Sample.noon) [] in
  from_user_id Sample.generate_cat = 123456789 /\
  map hashed_user (df (snd r)) = [123456789] /\
  In (to_csv (df (snd r))) (calls (snd r)).
Proof.
  cbv zeta. split; [reflexivity |]. split.
  - vm_compute. reflexivity.
  - vm_compute. right. left. reflexivity.
Qed.

(* ------------------------------------------------------------------ *)
(** ** C9: the error report *)

Lemma replace_char_flat_map (old : char) (new : str) (f : char -> str)
    (s : str) :
  replace_char old new (flat_map f s)
  = flat_map (fun c => replace_char old new (f c)) s.
Proof.
  unfold replace_char.
  induction s as [| c r IH]; [reflexivity |].
  change (flat_map f (c :: r)) with (f c ++ flat_map f r).
  rewrite flat_map_app. cbn [flat_map]. f_equal. exact IH.
Qed.

Lemma html_escape_per_char (s : str) :
  html_escape s = flat_map escape_char s.
Proof.
  unfold html_escape. unfold replace_char at 5.
  rewrite !replace_char_flat_map.
  apply flat_map_ext. intros c. unfold escape_char.
  destruct (N.eqb_spec c 38) as [-> | H38]; [reflexivity |].
  unfold replace_char; cbn [flat_map].
  destruct (N.eqb_spec c 60) as [-> | H60]; [reflexivity |].
  cbn [flat_map app].
  destruct (N.eqb_spec c 62) as [-> | H62]; [reflexivity |].
  cbn [flat_map app].
  destruct (N.eqb_spec c 34) as [-> | H34]; [reflexivity |].
  cbn [flat_map app].
  destruct (N.eqb_spec c 39) as [-> | H39]; reflexivity.
Qed.

Lemma error_text_shape (tb_string : str) :
  error_text tb_string
  = error_header ++ firstn 4036 (html_escape tb_string) ++ lit "</pre>".
Proof.
  unfold error_text, slice_to. cbv zeta.
  rewrite firstn_app.
  rewrite firstn_all2 by (vm_compute; lia).
  change (4090 - List.length error_header)%nat with 4036%nat.
  rewrite <- app_assoc. reflexivity.
Qed.

Lemma error_text_length (tb_string : str) :
  (List.length (error_text tb_string) <= 4096)%nat.
Proof.
  unfold error_text, slice_to. cbv zeta.
  rewrite length_app.
  pose proof (firstn_le_length 4090 (error_header ++ html_escape tb_string)).
  change (List.length (lit "</pre>")) with 6%nat. lia.
Qed.

(** C9 (as stated, refuted): the error handler does raise for some
    errors: its send to the developer chat is not guarded, so when that
    send raises, the handler raises too. *)
Lemma error_handler_raises_when_send_fails :
  ~ (forall dev error w s,
        fst (error_handler dev error w s) = Return MESSAGE).
Proof.
  intros H.
  specialize (H Sample.developer Sample2.timeout
                (Sample2.report_fails Sample2.rate_limit Sample.noon)
                {| df := []; calls := []; outcome := None |}).
  vm_compute in H. discriminate H.
Qed.

(** C9 (amended): for every error, from every state, the error handler
    makes one log entry and one HTML send to the developer chat; the text
    sent is the fixed header, then at most the first 4036 characters of
    the traceback escaped character by character (ampersand, angle
    brackets and both quotes replaced by their entities, every other
    character kept), then the closing tag, at most 4096 characters in
    all; building the text never raises, and the handler returns
    [MESSAGE] when the send succeeds and raises what the send raises
    otherwise. *)
Theorem error_report_escaped_and_bounded (dev : Z) (error : Exn)
    (w : World) (s : St) :
  let r := error_handler dev error w s in
  let text := error_text (exn_traceback error) in
  df (snd r) = df s /\
  calls (snd r) = calls s ++ [logger_error; send_message dev text true] /\
  text = error_header
         ++ firstn 4036 (flat_map escape_char (exn_traceback error))
         ++ lit "</pre>" /\
  (List.length text <= 4096)%nat /\
  fst r = match error_report_result w with
          | None => Return MESSAGE
          | Some e => Raise e
          end.
Proof.
  cbv zeta. rewrite error_handler_run. cbn [fst snd df calls].
  split; [reflexivity |]. split.
  - rewrite <- app_assoc. reflexivity.
  - split; [rewrite <- html_escape_per_char; apply error_text_shape |].
    split; [apply error_text_length | reflexivity].
Qed.

(* ------------------------------------------------------------------ *)
(** ** C10: the size of the image *)

Lemma generate_default_size_calls (dev : Z) (update : Update) (p : str)
    (chat : Z) (now : datetime) (w : World) (d : DataFrame) :
  Forall image_request_ok
    (calls (snd (run (generate dev update p chat now (user_of update)
                        generate_default_size) w d))).
Proof.
  pose proof (generate_effects dev update p chat now generate_default_size w d)
    as [_ Hcalls].
  rewrite Hcalls. apply Forall_app. split.
  - unfold calls_until_csv.
    destruct (chat_type update); repeat constructor.
  - destruct (to_csv_result w); [constructor |].
    unfold calls_after_csv.
    destruct (moderation_flagged w p) as [e | [|]].
    + destruct (exn_class e); repeat constructor.
    + repeat constructor.
    + cbv zeta.
      destruct (image_url w p 1 _ _) as [e | url];
        [destruct (exn_class e) |]; repeat constructor.
Qed.

Lemma check_sizes (dev : Z) (update : Update) (p : str) (w : World)
    (d : DataFrame) :
  let st := snd (run (check_if_prompt_empty_and_message_not_too_early
                        dev update p) w d) in
  (exists new, df st = d ++ new /\ Forall (fun r => size r = 256) new) /\
  Forall image_request_ok (calls st).
Proof.
  cbv zeta. check_by_cases dev update p w d; cbn [snd df calls];
    try (split; [exists []; rewrite app_nil_r; split; constructor |];
         repeat constructor).
  split; [| apply generate_default_size_calls].
  pose proof (generate_effects dev update p (chat_id update)
                (datetime_now w) generate_default_size w d) as [Hdf _].
  rewrite Hdf. eexists. split; [reflexivity |].
  repeat constructor.
Qed.

(** C10: whatever update the conversation handler processes, in whatever
    state and world, the rows it adds to [df] all have [size = 256], and
    every image request in the call log asks for [n = 1] image of size
    ["256x256"]. *)
Theorem appended_rows_have_size_256 (dev : Z) (cst : option State)
    (update : Update) (w : World) (d : DataFrame) :
  let st := snd (run (process_update dev cst update) w d) in
  (exists new, df st = d ++ new /\ Forall (fun r => size r = 256) new) /\
  Forall image_request_ok (calls st).
Proof.
  cbv zeta.
  assert (Hkeep : forall (r : Res State * St),
            ((exists new, df (snd r) = d ++ new
                          /\ Forall (fun r => size r = 256) new) /\
             Forall image_request_ok (calls (snd r))) ->
            (exists new,
                df (snd (match r with
                         | (Return s, st) => (Return (Some s), st)
                         | (Raise e, st) =>
                             (Return cst,
                              {| df := df st;
                                 calls := (calls st ++ [logger_error])
                                          ++ [send_message dev
                                                (error_text (exn_traceback e))
                                                true];
                                 outcome := outcome st |})
                         end)) = d ++ new
                /\ Forall (fun r => size r = 256) new) /\
            Forall image_request_ok
              (calls (snd (match r with
                           | (Return s, st) => (Return (Some s), st)
                           | (Raise e, st) =>
                               (Return cst,
                                {| df := df st;
                                   calls := (calls st ++ [logger_error])
                                            ++ [send_message dev
                                                  (error_text (exn_traceback e))
                                                  true];
                                   outcome := outcome st |})
                           end)))).
  { intros [[s | e] st] [Hdf Hcalls]; cbn [snd df calls] in *.
    - split; assumption.
    - split; [assumption |].
      repeat (apply Forall_app; split); try assumption; repeat constructor. }
  destruct (conv_handler dev cst update) as [h |] eqn:Hh.
  - rewrite (process_update_callback _ _ _ _ _ _ Hh).
    apply Hkeep.
    destruct (conv_handler_cases _ _ _ _ Hh) as [-> | [-> | [-> | ->]]].
    + apply check_sizes.
    + apply check_sizes.
    + cbn. split; [exists []; rewrite app_nil_r; split; constructor |].
      repeat constructor.
    + cbn. split; [exists []; rewrite app_nil_r; split; constructor |].
      constructor.
  - unfold run, process_update. rewrite Hh. cbn.
    split; [exists []; rewrite app_nil_r; split; constructor |].
    constructor.
Qed.

(* ------------------------------------------------------------------ *)
(** ** Further properties of the admission check *)

Lemma generate_never_too_soon (dev : Z) (update : Update) (p : str)
    (chat : Z) (now : datetime) (user sz : Z) (w : World) (d : DataFrame)
    (o : Outcome) :
  outcome (snd (run (generate dev update p chat now user sz) w d)) = Some o ->
  o = Blocked \/ o = Delivered \/ o = ProviderError.
Proof.
  pose proof (generate_result dev update p chat now user sz w d) as Hg.
  cbv zeta in Hg.
  destruct (run _ w d) as [[s | e] st]; cbn [fst snd] in *; intros Ho.
  - destruct Hg as [_ [H | [H | H]]]; rewrite H in Ho; inversion Ho; auto.
  - congruence.
Qed.

(** X1: on an aligned frame (no label twice, or every row the sender's)
    the admission check changes the ledger exactly when the request
    passes the delay check, the sender has at most 5 rows since [today]
    and the prompt is not empty: then exactly the new row is appended;
    otherwise the frame is unchanged and the only call is one message to
    the requester. *)
Theorem ledger_changes_iff_admitted (dev : Z) (update : Update) (p : str)
    (w : World) (d : DataFrame) :
  aligned d (user_of update) ->
  let st := snd (run (check_if_prompt_empty_and_message_not_too_early
                        dev update p) w d) in
  (df st <> d <->
   passes_interval d update w /\
   count_since d (user_of update) (date_today w) <= 5 /\
   p <> []) /\
  (df st <> d -> df st = d ++ [new_row update p (datetime_now w) 256]) /\
  (df st = d ->
   exists text, calls st = [send_message (chat_id update) text false]).
Proof.
  intros Haligned. cbv zeta.
  pose proof (quota_exact_when_aligned (date_today w) d (user_of update)
                Haligned) as Hexact.
  assert (Hgrow : forall r : Row, d ++ [r] <> d).
  { intros r H. apply (f_equal (@List.length Row)) in H.
    rewrite length_app in H. cbn in H. lia. }
  check_by_cases dev update p w d; cbn [snd df calls].
  - split; [split; [congruence | tauto] |].
    split; [congruence |]. intros _. eexists; reflexivity.
  - congruence.
  - assert (n = count_since d (user_of update) (date_today w)) by congruence.
    subst n. change max_images_per_day with 5 in Hover.
    split; [split; [congruence | lia] |].
    split; [congruence |]. intros _. eexists; reflexivity.
  - split; [split; [congruence | tauto] |].
    split; [congruence |]. intros _. eexists; reflexivity.
  - destruct Hq as [n [Hnum Hle]].
    assert (n = count_since d (user_of update) (date_today w)) by congruence.
    subst n. change max_images_per_day with 5 in Hle.
    pose proof (generate_effects dev update p (chat_id update)
                  (datetime_now w) generate_default_size w d) as [Hdf _].
    change generate_default_size with 256 in *.
    rewrite Hdf.
    split; [split; [tauto | intros _; apply Hgrow] |].
    split; [reflexivity |].
    intros Heq. exfalso. exact (Hgrow _ Heq).
Qed.

Lemma ledger_changes_iff_admitted_witness :
  df (snd (run (check_if_prompt_empty_and_message_not_too_early
                  Sample.developer Sample.generate_cat (lit "a cat"))
             (Sample.world Sample.noon)
             (initial_df (Some Sample2.six_rows_of_alice))))
  <> initial_df (Some Sample2.six_rows_of_alice) <->
  passes_interval (initial_df (Some Sample2.six_rows_of_alice))
    Sample.generate_cat (Sample.world Sample.noon) /\
  count_since (initial_df (Some Sample2.six_rows_of_alice))
    (user_of Sample.generate_cat) (date_today (Sample.world Sample.noon))
  <= 5 /\
  lit "a cat" <> [].
Proof.
  refine (proj1 (ledger_changes_iff_admitted Sample.developer
                   Sample.generate_cat (lit "a cat")
                   (Sample.world Sample.noon)
                   (initial_df (Some Sample2.six_rows_of_alice)) _)).
  apply initial_df_aligned.
Defined.

(** X2: whenever a request is answered "too soon", the waiting time in
    the answer is between 1 and 60 seconds, and the answer is the only
    call made. *)
Theorem too_soon_retry_between_1_and_60 (dev : Z) (update : Update)
    (p : str) (w : World) (d : DataFrame) (retry : Z) :
  outcome (snd (run (check_if_prompt_empty_and_message_not_too_early
                       dev update p) w d)) = Some (TooSoon retry) ->
  1 <= retry <= 60 /\
  run (check_if_prompt_empty_and_message_not_too_early dev update p) w d =
  (Return EMPTY_MESSAGE,
   {| df := d;
      calls := [send_message (chat_id update)
                  (too_early_text (60 - retry)) false];
      outcome := Some (TooSoon retry) |}).
Proof.
  check_by_cases dev update p w d; cbn [snd outcome]; try discriminate.
  - intros Ho.
    assert (Hretry : min_requests_delay
                     - seconds_diff d (user_of update) (datetime_now w)
                     = retry) by congruence.
    clear Ho.
    pose proof (timedelta_seconds_range (datetime_now w)
                  (max_datetime_for_user d (user_of update))) as Hrange.
    unfold passes_interval, seconds_diff in *.
    change min_requests_delay with 60 in *.
    split; [lia |].
    replace (60 - retry)
      with (timedelta_seconds (datetime_now w)
              (max_datetime_for_user d (user_of update))) by lia.
    rewrite Hretry. reflexivity.
  - intros Ho. apply generate_never_too_soon in Ho.
    destruct Ho as [Ho | [Ho | Ho]]; discriminate Ho.
Qed.

Lemma too_soon_retry_between_1_and_60_witness : 1 <= 30 <= 60.
Proof.
  refine (proj1 (too_soon_retry_between_1_and_60 Sample.developer
                   Sample.generate_cat (lit "a cat")
                   (Sample.world (mk_datetime 2022 11 5 12 0 30 0))
                   [Sample.row_at Sample.noon] 30 _)).
  vm_compute. reflexivity.
Defined.

(** X3: for a user with no row in the ledger, the delay check passes
    exactly when the request is made at least 60 seconds after
    midnight. *)
Theorem new_user_passes_interval_iff (d : DataFrame) (update : Update)
    (w : World) :
  rows_of_user d (user_of update) = [] ->
  (passes_interval d update w <->
   60 <= (datetime_now w / us_per_second) mod seconds_per_day).
Proof.
  intros Hnone. unfold passes_interval.
  rewrite seconds_diff_new_user by assumption.
  change min_requests_delay with 60. tauto.
Qed.

Lemma new_user_passes_interval_iff_witness :
  passes_interval [] Sample.generate_cat (Sample.world Sample.noon) <->
  60 <= (datetime_now (Sample.world Sample.noon) / us_per_second)
        mod seconds_per_day.
Proof.
  apply (new_user_passes_interval_iff [] Sample.generate_cat
           (Sample.world Sample.noon)).
  reflexivity.
Defined.

(** X4: a request made less than 60 seconds after the user's latest row
    is answered "too soon" with the remaining whole seconds; it changes
    nothing and calls nobody else. *)
Theorem request_within_a_minute_rejected (dev : Z) (update : Update)
    (p : str) (w : World) (d : DataFrame) (t g : Z) :
  max_datetime_for_user d (user_of update) = t ->
  datetime_now w = t + g ->
  0 <= g < 60 * us_per_second ->
  run (check_if_prompt_empty_and_message_not_too_early dev update p) w d =
  (Return EMPTY_MESSAGE,
   {| df := d;
      calls := [send_message (chat_id update)
                  (too_early_text (g / us_per_second)) false];
      outcome := Some (TooSoon (60 - g / us_per_second)) |}).
Proof.
  intros Hmax Hnow Hg.
  change (60 * us_per_second) with 60000000 in Hg.
  assert (Hsd : seconds_diff d (user_of update) (datetime_now w)
                = g / us_per_second).
  { unfold seconds_diff. rewrite Hmax, Hnow.
    apply timedelta_seconds_within_day.
    change us_per_day with 86400000000. lia. }
  assert (Hlt : g / us_per_second < 60).
  { apply Z.div_lt_upper_bound; change us_per_second with 1000000; lia. }
  rewrite check_too_soon.
  - rewrite Hsd. reflexivity.
  - unfold passes_interval. rewrite Hsd. change min_requests_delay with 60. lia.
Qed.

Lemma request_within_a_minute_rejected_witness :
  fst (run (check_if_prompt_empty_and_message_not_too_early
              Sample.developer Sample.generate_cat (lit "a cat"))
         (Sample.world (mk_datetime 2022 11 5 12 0 59 999999))
         [Sample.row_at Sample.noon])
  = Return EMPTY_MESSAGE.
Proof.
  refine (f_equal fst
            (request_within_a_minute_rejected Sample.developer
               Sample.generate_cat (lit "a cat")
               (Sample.world (mk_datetime 2022 11 5 12 0 59 999999))
               [Sample.row_at Sample.noon] Sample.noon 59999999 _ _ _)).
  - reflexivity.
  - reflexivity.
  - vm_compute. split; congruence.
Defined.

Lemma request_within_a_day_passes_interval_witness :
  passes_interval [Sample.row_at Sample.noon] Sample.generate_cat
    (Sample.world (mk_datetime 2022 11 5 12 1 0 0)).
Proof.
  apply (request_within_a_day_passes_interval [Sample.row_at Sample.noon]
           Sample.generate_cat (Sample.world (mk_datetime 2022 11 5 12 1 0 0))
           Sample.noon 60000000).
  - reflexivity.
  - reflexivity.
  - vm_compute. split; congruence.
Defined.

Lemma request_days_later_judged_by_time_of_day_witness :
  seconds_diff [Sample.row_at Sample.noon] (user_of Sample.generate_cat)
    (Sample.noon + 30000000 + 3 * us_per_day)
  = seconds_diff [Sample.row_at Sample.noon] (user_of Sample.generate_cat)
      (Sample.noon + 30000000).
Proof.
  apply (request_days_later_judged_by_time_of_day [Sample.row_at Sample.noon]
           Sample.generate_cat Sample.noon 30000000 3).
  reflexivity.
Defined.

(* ------------------------------------------------------------------ *)
(** ** The paths through [generate] *)

Ltac run_generate :=
  unfold run; unfold_py;
  change (str_of_int 256 ++ lit "x" ++ str_of_int 256) with (lit "256x256");
  unfold calls_until_csv, new_row, is_group_of;
  destruct (chat_type _); unfold_py.

(** X7: every run of [generate] whose CSV write, moderation request (not
    flagged) and image request succeed returns [MESSAGE]: after the CSV
    write come the moderation request, one image request for 256x256 on
    behalf of the hashed user, the photo to the requester captioned with
    the prompt, and the photo to the developer chat captioned with the
    group tag and the prompt. *)
Theorem unflagged_prompt_is_delivered (dev : Z) (update : Update) (p : str)
    (chat : Z) (now : datetime) (w : World) (d : DataFrame) (url : str) :
  to_csv_result w = None ->
  moderation_flagged w p = inr false ->
  image_url w p 1 (lit "256x256") (str_of_int (user_of update)) = inr url ->
  run (generate dev update p chat now (user_of update) 256) w d =
  (Return MESSAGE,
   {| df := d ++ [new_row update p now 256];
      calls :=
        calls_until_csv update chat (d ++ [new_row update p now 256])
        ++ [Moderation_create p;
            Image_create p 1 (lit "256x256") (str_of_int (user_of update));
            send_photo chat url p;
            send_photo dev url
              ((if is_group_of update then lit "group: "
                else lit "single user: ") ++ p)];
      outcome := Some Delivered |}).
Proof.
  intros Hok Hmod Himg.
  run_generate; rewrite Hok; unfold_py; rewrite Hmod; unfold_py;
    change (str_of_int 256 ++ lit "x" ++ str_of_int 256)
      with (lit "256x256");
    rewrite Himg; reflexivity.
Qed.

Lemma unflagged_prompt_is_delivered_witness :
  fst (run (generate Sample.developer Sample.generate_cat (lit "a cat") 7
              Sample.noon (user_of Sample.generate_cat) 256)
         (Sample.world Sample.noon) [])
  = Return MESSAGE.
Proof.
  refine (f_equal fst
            (unflagged_prompt_is_delivered Sample.developer
               Sample.generate_cat (lit "a cat") 7 Sample.noon
               (Sample.world Sample.noon)
               [] (lit "https://img.example/1.png") _ _ _)).
  - reflexivity.
  - reflexivity.
  - reflexivity.
Defined.

(** X8: when the moderation request of a run of [generate] raises an
    invalid-request or rate-limit error, [generate] still returns
    [MESSAGE]: the row stays recorded, no image is requested, the
    requester gets the error text and the developer chat the prompt and
    the error text. *)
Theorem moderation_error_is_reported (dev : Z) (update : Update) (p : str)
    (chat : Z) (now : datetime) (w : World) (d : DataFrame) (e : Exn) :
  to_csv_result w = None ->
  moderation_flagged w p = inl e ->
  exn_class e <> OtherException ->
  run (generate dev update p chat now (user_of update) 256) w d =
  (Return MESSAGE,
   {| df := d ++ [new_row update p now 256];
      calls :=
        calls_until_csv update chat (d ++ [new_row update p now 256])
        ++ [Moderation_create p;
            send_message chat (exn_str e) false;
            send_message dev (p ++ [10%N] ++ exn_str e) false];
      outcome := Some ProviderError |}).
Proof.
  intros Hok Hmod Hclass.
  run_generate; rewrite Hok; unfold_py; rewrite Hmod; unfold_py;
    destruct (exn_class e); (reflexivity || congruence).
Qed.

Lemma moderation_error_is_reported_witness :
  fst (run (generate Sample.developer Sample.generate_cat (lit "a cat") 7
              Sample.noon (user_of Sample.generate_cat) 256)
         (Sample2.moderation_raises Sample2.rate_limit Sample.noon) [])
  = Return MESSAGE.
Proof.
  refine (f_equal fst
            (moderation_error_is_reported Sample.developer
               Sample.generate_cat (lit "a cat") 7 Sample.noon
               (Sample2.moderation_raises Sample2.rate_limit Sample.noon)
               [] Sample2.rate_limit _ _ _)).
  - reflexivity.
  - reflexivity.
  - discriminate.
Defined.

(** X9: when the image request of a run of [generate] raises an
    invalid-request or rate-limit error, [generate] returns [MESSAGE]:
    the row stays recorded, no photo is sent, the requester gets the
    error text and the developer chat the prompt and the error text. *)
Theorem image_error_is_reported (dev : Z) (update : Update) (p : str)
    (chat : Z) (now : datetime) (w : World) (d : DataFrame) (e : Exn) :
  to_csv_result w = None ->
  moderation_flagged w p = inr false ->
  image_url w p 1 (lit "256x256") (str_of_int (user_of update)) = inl e ->
  exn_class e <> OtherException ->
  run (generate dev update p chat now (user_of update) 256) w d =
  (Return MESSAGE,
   {| df := d ++ [new_row update p now 256];
      calls :=
        calls_until_csv update chat (d ++ [new_row update p now 256])
        ++ [Moderation_create p;
            Image_create p 1 (lit "256x256") (str_of_int (user_of update));
            send_message chat (exn_str e) false;
            send_message dev (p ++ [10%N] ++ exn_str e) false];
      outcome := Some ProviderError |}).
Proof.
  intros Hok Hmod Himg Hclass.
  run_generate; rewrite Hok; unfold_py; rewrite Hmod; unfold_py;
    change (str_of_int 256 ++ lit "x" ++ str_of_int 256)
      with (lit "256x256");
    rewrite Himg; unfold_py;
    destruct (exn_class e); (reflexivity || congruence).
Qed.

Lemma image_error_is_reported_witness :
  fst (run (generate Sample.developer Sample.generate_cat (lit "a cat") 7
              Sample.noon (user_of Sample.generate_cat) 256)
         (Sample2.image_raises Sample2.rate_limit Sample.noon) [])
  = Return MESSAGE.
Proof.
  refine (f_equal fst
            (image_error_is_reported Sample.developer
               Sample.generate_cat (lit "a cat") 7 Sample.noon
               (Sample2.image_raises Sample2.rate_limit Sample.noon)
               [] Sample2.rate_limit _ _ _ _)).
  - reflexivity.
  - reflexivity.
  - reflexivity.
  - discriminate.
Defined.

(** X10: any other exception of a provider call leaves [generate]: the
    row stays recorded, and after the failing call nothing is sent to
    anybody and no outcome is reached. *)
Theorem other_provider_error_is_raised (dev : Z) (update : Update) (p : str)
    (chat : Z) (now : datetime) (w : World) (d : DataFrame) (e : Exn) :
  to_csv_result w = None ->
  exn_class e = OtherException ->
  (moderation_flagged w p = inl e ->
   run (generate dev update p chat now (user_of update) 256) w d =
   (Raise e,
    {| df := d ++ [new_row update p now 256];
       calls :=
         calls_until_csv update chat (d ++ [new_row update p now 256])
         ++ [Moderation_create p];
       outcome := None |})) /\
  (moderation_flagged w p = inr false ->
   image_url w p 1 (lit "256x256") (str_of_int (user_of update)) = inl e ->
   run (generate dev update p chat now (user_of update) 256) w d =
   (Raise e,
    {| df := d ++ [new_row update p now 256];
       calls :=
         calls_until_csv update chat (d ++ [new_row update p now 256])
         ++ [Moderation_create p;
             Image_create p 1 (lit "256x256") (str_of_int (user_of update))];
       outcome := None |})).
Proof.
  intros Hok Hclass.
  split.
  - intros Hmod.
    run_generate; rewrite Hok; unfold_py; rewrite Hmod; unfold_py;
      rewrite Hclass; reflexivity.
  - intros Hmod Himg.
    run_generate; rewrite Hok; unfold_py; rewrite Hmod; unfold_py;
      change (str_of_int 256 ++ lit "x" ++ str_of_int 256)
        with (lit "256x256");
      rewrite Himg; unfold_py; rewrite Hclass; reflexivity.
Qed.

Lemma other_provider_error_is_raised_witness :
  fst (run (generate Sample.developer Sample.generate_cat (lit "a cat") 7
              Sample.noon (user_of Sample.generate_cat) 256)
         (Sample2.moderation_raises Sample2.timeout Sample.noon) [])
  = Raise Sample2.timeout.
Proof.
  refine (f_equal fst
            (proj1 (other_provider_error_is_raised Sample.developer
                      Sample.generate_cat (lit "a cat") 7 Sample.noon
                      (Sample2.moderation_raises Sample2.timeout Sample.noon)
                      [] Sample2.timeout _ _) _)).
  - reflexivity.
  - reflexivity.
  - reflexivity.
Defined.

(** X11: when writing the CSV file raises in a run of [generate], the
    exception leaves [generate]: the new row is already in the in-memory
    frame, and neither the provider nor anybody else is called
    afterwards. *)
Theorem failed_csv_write_is_raised (dev : Z) (update : Update) (p : str)
    (chat : Z) (now : datetime) (w : World) (d : DataFrame) (e : Exn) :
  to_csv_result w = Some e ->
  run (generate dev update p chat now (user_of update) 256) w d =
  (Raise e,
   {| df := d ++ [new_row update p now 256];
      calls := calls_until_csv update chat (d ++ [new_row update p now 256]);
      outcome := None |}).
Proof.
  intros Hfail.
  run_generate; rewrite Hfail; reflexivity.
Qed.

Lemma failed_csv_write_is_raised_witness :
  fst (run (generate Sample.developer Sample.generate_cat (lit "a cat") 7
              Sample.noon (user_of Sample.generate_cat) 256)
         (Sample2.disk_full Sample2.timeout Sample.noon) [])
  = Raise Sample2.timeout.
Proof.
  refine (f_equal fst
            (failed_csv_write_is_raised Sample.developer
               Sample.generate_cat (lit "a cat") 7 Sample.noon
               (Sample2.disk_full Sample2.timeout Sample.noon)
               [] Sample2.timeout _)).
  reflexivity.
Defined.

(* ------------------------------------------------------------------ *)
(** ** The conversation handler *)

Lemma conv_handler_generate (dev : Z) (cst : option State) (update : Update)
    (args : list str) :
  message update = Command (lit "generate") args ->
  conv_handler dev cst update = Some (generate_from_command dev update).
Proof.
  intros Hm. unfold conv_handler, is_command, is_text. rewrite Hm.
  destruct cst as [[|] |]; reflexivity.
Qed.

(** The callback selected for an update, with the shape of the message
    it is selected for. *)
Lemma conv_handler_shape (dev : Z) (cst : option State) (update : Update)
    (h : M State) :
  conv_handler dev cst update = Some h ->
  (h = generate_from_command dev update /\
   exists name args, message update = Command name args) \/
  (h = generate_from_message dev update /\
   cst = Some EMPTY_MESSAGE /\
   exists t, message update = Text t /\ t <> []) \/
  h = start update \/
  h = cancel update.
Proof.
  unfold conv_handler, is_command, is_text.
  destruct (message update) as [name args | t] eqn:Hm.
  - destruct cst as [[|] |];
      destruct (str_eqb name (lit "generate"));
      destruct (str_eqb name (lit "start"));
      destruct (str_eqb name (lit "cancel"));
      cbn; intros H; inversion H; eauto 6.
  - destruct cst as [[|] |]; cbn; try discriminate.
    destruct t as [| c t']; cbn; [discriminate |].
    intros H; inversion H. right. left.
    repeat split. exists (c :: t'). split; [reflexivity | discriminate].
Qed.

(** X12: a text message is ignored unless the conversation awaits a
    prompt: with no conversation or in state [MESSAGE] no callback runs,
    the state is kept, nothing is recorded and nobody is called. *)
Theorem text_ignored_unless_prompt_awaited (dev : Z) (cst : option State)
    (update : Update) (t : str) (w : World) (d : DataFrame) :
  message update = Text t ->
  cst <> Some EMPTY_MESSAGE ->
  run (process_update dev cst update) w d =
  (Return cst, {| df := d; calls := []; outcome := None |}).
Proof.
  intros Hm Hcst. unfold run, process_update, conv_handler, is_command, is_text.
  rewrite Hm.
  destruct cst as [[|] |]; [reflexivity | congruence | reflexivity].
Qed.

Lemma text_ignored_unless_prompt_awaited_witness :
  run (process_update Sample.developer (Some MESSAGE) Sample2.text_a_cat)
      (Sample.world Sample.noon) []
  = (Return (Some MESSAGE), {| df := []; calls := []; outcome := None |}).
Proof.
  apply (text_ignored_unless_prompt_awaited Sample.developer (Some MESSAGE)
           Sample2.text_a_cat (lit " a cat ") (Sample.world Sample.noon) []).
  - reflexivity.
  - discriminate.
Defined.

(** X13: [/cancel] brings a running conversation back to [MESSAGE] from
    either state and is ignored when no conversation has started; it
    never records anything and calls nobody. *)
Theorem cancel_returns_to_MESSAGE (dev : Z) (cst : option State)
    (update : Update) (args : list str) (w : World) (d : DataFrame) :
  message update = Command (lit "cancel") args ->
  run (process_update dev cst update) w d =
  (Return (match cst with
           | Some _ => Some MESSAGE
           | None => None
           end),
   {| df := d; calls := []; outcome := None |}).
Proof.
  intros Hm. unfold run, process_update, conv_handler, is_command, is_text.
  rewrite Hm.
  destruct cst as [[|] |]; reflexivity.
Qed.

Lemma cancel_returns_to_MESSAGE_witness :
  run (process_update Sample.developer (Some EMPTY_MESSAGE)
         Sample2.cancel_command)
      (Sample.world Sample.noon) []
  = (Return (Some MESSAGE), {| df := []; calls := []; outcome := None |}).
Proof.
  apply (cancel_returns_to_MESSAGE Sample.developer (Some EMPTY_MESSAGE)
           Sample2.cancel_command [] (Sample.world Sample.noon) []).
  reflexivity.
Defined.

(** X14: [/start] is accepted in every conversation state, also before
    any conversation: the greeting goes to the chat of the update, the
    state becomes [MESSAGE], and the ledger, the provider and the
    developer chat are not touched. *)
Theorem start_greets_in_every_state (dev : Z) (cst : option State)
    (update : Update) (args : list str) (w : World) (d : DataFrame) :
  message update = Command (lit "start") args ->
  run (process_update dev cst update) w d =
  (Return (Some MESSAGE),
   {| df := d;
      calls := [send_message (chat_id update) greeting false];
      outcome := None |}).
Proof.
  intros Hm. unfold run, process_update, conv_handler, is_command, is_text.
  rewrite Hm.
  destruct cst as [[|] |]; reflexivity.
Qed.

Lemma start_greets_in_every_state_witness :
  fst (run (process_update Sample.developer (Some EMPTY_MESSAGE)
              Sample2.start_command)
         (Sample.world Sample.noon) [])
  = Return (Some MESSAGE).
Proof.
  refine (f_equal fst
            (start_greets_in_every_state Sample.developer
               (Some EMPTY_MESSAGE) Sample2.start_command []
               (Sample.world Sample.noon) [] _)).
  reflexivity.
Defined.

(** The admission check reads only the chat, the chat type and the
    sender of an update. *)
Lemma check_reads_chat_and_sender (dev : Z) (u1 u2 : Update) (p : str) :
  chat_id u1 = chat_id u2 ->
  chat_type u1 = chat_type u2 ->
  from_user_id u1 = from_user_id u2 ->
  check_if_prompt_empty_and_message_not_too_early dev u1 p =
  check_if_prompt_empty_and_message_not_too_early dev u2 p.
Proof.
  destruct u1 as [c1 ty1 f1 m1], u2 as [c2 ty2 f2 m2]. cbn.
  intros -> -> ->. reflexivity.
Qed.

(** X15: while a prompt is awaited, a text message and a [/generate]
    command from the same sender in the same chat whose texts strip to
    the same prompt are processed identically: same new state, same
    ledger, same calls. *)
Theorem prompt_by_message_like_prompt_by_command (dev : Z)
    (u_cmd u_text : Update) (args : list str) (t : str) (w : World)
    (d : DataFrame) :
  message u_cmd = Command (lit "generate") args ->
  message u_text = Text t ->
  t <> [] ->
  chat_id u_cmd = chat_id u_text ->
  chat_type u_cmd = chat_type u_text ->
  from_user_id u_cmd = from_user_id u_text ->
  strip (join (lit " ") args) = strip t ->
  run (process_update dev (Some EMPTY_MESSAGE) u_text) w d =
  run (process_update dev (Some EMPTY_MESSAGE) u_cmd) w d.
Proof.
  intros Hcmd Htext Ht Hchat Htype Hfrom Hstrip.
  assert (Hh : conv_handler dev (Some EMPTY_MESSAGE) u_text
               = Some (generate_from_message dev u_text)).
  { unfold conv_handler, is_text. rewrite Htext.
    destruct t; [contradiction | reflexivity]. }
  rewrite (process_update_callback _ _ _ _ _ _ Hh).
  rewrite (process_update_callback _ _ _ _ _ _
             (conv_handler_generate dev (Some EMPTY_MESSAGE) u_cmd args Hcmd)).
  unfold generate_from_message, generate_from_command, message_text,
    context_args.
  rewrite Hcmd, Htext, Hstrip.
  rewrite (check_reads_chat_and_sender dev u_cmd u_text) by assumption.
  reflexivity.
Qed.

Lemma prompt_by_message_like_prompt_by_command_witness :
  run (process_update Sample.developer (Some EMPTY_MESSAGE)
         Sample2.text_a_cat) (Sample.world Sample.noon) []
  = run (process_update Sample.developer (Some EMPTY_MESSAGE)
           Sample.generate_cat) (Sample.world Sample.noon) [].
Proof.
  apply (prompt_by_message_like_prompt_by_command Sample.developer
           Sample.generate_cat Sample2.text_a_cat [lit "a"; lit "cat"]
           (lit " a cat ")).
  - reflexivity.
  - reflexivity.
  - discriminate.
  - reflexivity.
  - reflexivity.
  - reflexivity.
  - reflexivity.
Defined.

Lemma check_df_step (dev : Z) (update : Update) (p : str) (w : World)
    (d : DataFrame) :
  df (snd (run (check_if_prompt_empty_and_message_not_too_early
                  dev update p) w d)) = d \/
  exists r,
    df (snd (run (check_if_prompt_empty_and_message_not_too_early
                    dev update p) w d)) = d ++ [r].
Proof.
  check_by_cases dev update p w d; cbn [snd df]; auto.
  pose proof (generate_effects dev update p (chat_id update)
                (datetime_now w) generate_default_size w d) as [Hdf _].
  right. eexists. exact Hdf.
Qed.

Lemma generate_raise_quiet (dev : Z) (update : Update) (p : str)
    (chat : Z) (now : datetime) (user sz : Z) (w : World) (d : DataFrame)
    (e : Exn) :
  fst (run (generate dev update p chat now user sz) w d) = Raise e ->
  existsb is_send (calls (snd (run (generate dev update p chat now user sz)
                                 w d))) = false.
Proof.
  unfold run. unfold_py.
  destruct (chat_type update) as [t |]; unfold_py;
    (destruct (to_csv_result w) as [e0 |]; unfold_py;
     [intros _; reflexivity |]);
    (destruct (moderation_flagged w p) as [e0 | [|]]; unfold_py;
     [destruct (exn_class e0); unfold_py;
      first [discriminate | intros _; reflexivity]
     | discriminate
     | ]);
    match goal with
    | |- context [image_url ?w ?a ?b ?c ?u] =>
        destruct (image_url w a b c u) as [e0 | url]; unfold_py;
        [destruct (exn_class e0); unfold_py;
         first [discriminate | intros _; reflexivity]
        | discriminate]
    end.
Qed.

Lemma check_raise_quiet (dev : Z) (update : Update) (p : str) (w : World)
    (d : DataFrame) (e : Exn) :
  fst (run (check_if_prompt_empty_and_message_not_too_early dev update p)
         w d) = Raise e ->
  existsb is_send
    (calls (snd (run (check_if_prompt_empty_and_message_not_too_early
                        dev update p) w d))) = false.
Proof.
  check_by_cases dev update p w d; cbn [fst snd calls];
    try discriminate.
  - intros _. reflexivity.
  - apply generate_raise_quiet.
Qed.

(** X16: whenever the callback that handles an update raises, whatever
    the cause (the quota line, the CSV write, a provider call), the
    dispatcher still returns: the conversation state is kept, the frame
    stays as the callback left it (unchanged, or with the one new row),
    no outcome is reached, the callback has sent no message and no photo
    to anybody, and the log entry and the HTML report to the developer
    chat follow. *)
Theorem unclassified_error_keeps_conversation (dev : Z)
    (cst : option State) (update : Update) (h : M State) (w : World)
    (d : DataFrame) (e : Exn) :
  conv_handler dev cst update = Some h ->
  fst (run h w d) = Raise e ->
  let st := snd (run h w d) in
  run (process_update dev cst update) w d =
  (Return cst,
   {| df := df st;
      calls := calls st
               ++ [logger_error;
                   send_message dev (error_text (exn_traceback e)) true];
      outcome := None |}) /\
  existsb is_send (calls st) = false /\
  (df st = d \/ exists r, df st = d ++ [r]).
Proof.
  intros Hh Hraise. cbv zeta.
  rewrite (process_update_callback _ _ _ _ _ _ Hh).
  assert (Hfacts : outcome (snd (run h w d)) = None /\
                   existsb is_send (calls (snd (run h w d))) = false /\
                   (df (snd (run h w d)) = d \/
                    exists r, df (snd (run h w d)) = d ++ [r])).
  { destruct (conv_handler_cases _ _ _ _ Hh) as [-> | [-> | [-> | ->]]].
    - unfold generate_from_command in *.
      pose proof (check_result dev update
                    (strip (join (lit " ") (context_args update))) w d) as Hr.
      pose proof (check_df_step dev update
                    (strip (join (lit " ") (context_args update))) w d) as Hd.
      cbv zeta in Hr. rewrite Hraise in Hr.
      split; [exact Hr |]. split; [| exact Hd].
      apply (check_raise_quiet _ _ _ _ _ e). exact Hraise.
    - unfold generate_from_message in *.
      pose proof (check_result dev update (strip (message_text update)) w d)
        as Hr.
      pose proof (check_df_step dev update (strip (message_text update)) w d)
        as Hd.
      cbv zeta in Hr. rewrite Hraise in Hr.
      split; [exact Hr |]. split; [| exact Hd].
      apply (check_raise_quiet _ _ _ _ _ e). exact Hraise.
    - discriminate Hraise.
    - discriminate Hraise. }
  destruct Hfacts as [Hout [Hquiet Hdf]].
  destruct (run h w d) as [[s | e'] st]; cbn [fst snd] in *;
    [discriminate |].
  inversion Hraise; subst e'.
  rewrite Hout, <- app_assoc.
  split; [reflexivity |]. split; assumption.
Qed.

Lemma unclassified_error_keeps_conversation_witness :
  existsb is_send
    (calls (snd (run (generate_from_command Sample.developer
                        Sample.generate_cat)
                   (Sample2.moderation_raises Sample2.timeout Sample.noon)
                   [])))
  = false.
Proof.
  refine (proj1 (proj2 (unclassified_error_keeps_conversation
                          Sample.developer (Some MESSAGE) Sample.generate_cat
                          (generate_from_command Sample.developer
                             Sample.generate_cat)
                          (Sample2.moderation_raises Sample2.timeout
                             Sample.noon)
                          [] Sample2.timeout _ _))).
  - reflexivity.
  - vm_compute. reflexivity.
Defined.

(* ------------------------------------------------------------------ *)
(** ** What one update does to the ledger *)

Lemma check_df (dev : Z) (update : Update) (p : str) (w : World)
    (d : DataFrame) :
  let st := snd (run (check_if_prompt_empty_and_message_not_too_early
                        dev update p) w d) in
  df st = d \/
  (admitted d update p w /\
   df st = d ++ [new_row update p (datetime_now w) 256]).
Proof.
  cbv zeta. check_by_cases dev update p w d; cbn [snd df]; auto.
  pose proof (generate_effects dev update p (chat_id update)
                (datetime_now w) generate_default_size w d) as [Hdf _].
  right. split; [| exact Hdf].
  repeat split; assumption.
Qed.

Lemma process_update_df (dev : Z) (cst : option State) (update : Update)
    (w : World) (d : DataFrame) :
  let st := snd (run (process_update dev cst update) w d) in
  df st = d \/
  (admitted d update (strip (raw_prompt update)) w /\
   df st = d ++ [new_row update (strip (raw_prompt update))
                   (datetime_now w) 256]).
Proof.
  cbv zeta.
  destruct (conv_handler dev cst update) as [h |] eqn:Hh.
  - rewrite (process_update_callback _ _ _ _ _ _ Hh).
    assert (Hsame : forall r : Res State * St,
               df (snd (match r with
                        | (Return s, st) => (Return (Some s), st)
                        | (Raise e, st) =>
                            (Return cst,
                             {| df := df st;
                                calls := (calls st ++ [logger_error])
                                         ++ [send_message dev
                                               (error_text (exn_traceback e))
                                               true];
                                outcome := outcome st |})
                        end)) = df (snd r)).
    { intros [[s | e] st]; reflexivity. }
    rewrite Hsame.
    destruct (conv_handler_shape _ _ _ _ Hh)
      as [[-> [name [args Hm]]] | [[-> [_ [t [Hm _]]]] | [-> | ->]]].
    + unfold generate_from_command, context_args, raw_prompt. rewrite Hm.
      apply check_df.
    + unfold generate_from_message, message_text, raw_prompt. rewrite Hm.
      apply check_df.
    + left. reflexivity.
    + left. reflexivity.
  - unfold run, process_update. rewrite Hh. left. reflexivity.
Qed.

Lemma rows_of_user_app (d1 d2 : DataFrame) (u : Z) :
  rows_of_user (d1 ++ d2) u = rows_of_user d1 u ++ rows_of_user d2 u.
Proof. unfold rows_of_user. apply filter_app. Qed.

(** X17: processing an update of one user never changes the rows the
    ledger holds for another hashed user: that user's rows, computed gap
    and number of rows since any instant are the same before and
    after. *)
Theorem other_users_rows_untouched (dev : Z) (cst : option State)
    (update : Update) (w : World) (d : DataFrame) (u : Z) :
  u <> user_of update ->
  let st := snd (run (process_update dev cst update) w d) in
  rows_of_user (df st) u = rows_of_user d u /\
  (forall t, seconds_diff (df st) u t = seconds_diff d u t) /\
  (forall today, count_since (df st) u today = count_since d u today).
Proof.
  intros Hu. cbv zeta.
  assert (Hrows : rows_of_user
                    (df (snd (run (process_update dev cst update) w d))) u
                  = rows_of_user d u).
  { destruct (process_update_df dev cst update w d) as [-> | [_ ->]];
      [reflexivity |].
    rewrite rows_of_user_app. unfold rows_of_user at 2.
    cbn [filter new_row hashed_user].
    destruct (Z.eqb_spec (user_of update) u) as [Heq | _]; [congruence |].
    apply app_nil_r. }
  split; [exact Hrows |]. split.
  - intros t. unfold seconds_diff, max_datetime_for_user.
    rewrite Hrows. reflexivity.
  - intros today. rewrite !count_since_rows_of_user.
    rewrite Hrows. reflexivity.
Qed.

Lemma other_users_rows_untouched_witness :
  rows_of_user
    (df (snd (run (process_update Sample.developer None Sample.generate_cat)
                (Sample.world Sample.noon) [])))
    (hash Sample2.bob)
  = rows_of_user [] (hash Sample2.bob).
Proof.
  refine (proj1 (other_users_rows_untouched Sample.developer None
                   Sample.generate_cat (Sample.world Sample.noon) []
                   (hash Sample2.bob) _)).
  vm_compute. discriminate.
Defined.

(** X18: two senders whose Telegram ids differ and lie in
    [0, 2^61 - 1) have different hashed users, and no row of any frame is
    selected for both. *)
Theorem distinct_ids_distinct_users (u1 u2 : Update) :
  0 <= from_user_id u1 < _PyHASH_MODULUS ->
  0 <= from_user_id u2 < _PyHASH_MODULUS ->
  from_user_id u1 <> from_user_id u2 ->
  user_of u1 <> user_of u2 /\
  forall (d : DataFrame) (r : Row),
    In r (rows_of_user d (user_of u1)) ->
    ~ In r (rows_of_user d (user_of u2)).
Proof.
  intros H1 H2 Hne.
  assert (Huser : user_of u1 <> user_of u2).
  { unfold user_of. rewrite !hash_small_int by assumption. exact Hne. }
  split; [exact Huser |].
  intros d r Hin1 Hin2. unfold rows_of_user in *.
  apply filter_In in Hin1. apply filter_In in Hin2.
  destruct Hin1 as [_ Ha]. destruct Hin2 as [_ Hb].
  apply Z.eqb_eq in Ha. apply Z.eqb_eq in Hb. congruence.
Qed.

Lemma distinct_ids_distinct_users_witness :
  user_of Sample.generate_cat <> user_of Sample2.bob_generate.
Proof.
  refine (proj1 (distinct_ids_distinct_users Sample.generate_cat
                   Sample2.bob_generate _ _ _)).
  - vm_compute. split; congruence.
  - vm_compute. split; congruence.
  - vm_compute. discriminate.
Defined.

Lemma count_of_day_step (dev : Z) (cst : option State) (update : Update)
    (w : World) (d : DataFrame) (u : Z) :
  count_since d u (date_today w) <= 6 ->
  count_since (df (snd (run (process_update dev cst update) w d))) u
    (date_today w)
  <= 6.
Proof.
  intros Hbefore.
  destruct (process_update_df dev cst update w d)
    as [-> | [[_ [Hq _]] ->]]; [exact Hbefore |].
  destruct Hq as [n [Hnum Hle]].
  apply quota_never_undercounts in Hnum.
  change max_images_per_day with 5 in Hle.
  rewrite count_since_app. cbn [new_row hashed_user timestamp].
  destruct (Z.eqb_spec (user_of update) u) as [<- | _]; cbn [andb].
  - destruct (date_today w <=? datetime_now w); lia.
  - lia.
Qed.

(** X19: the cap the handlers enforce is six rows per user and day: if a
    user has at most 6 rows since [today] before an update is processed,
    the same holds afterwards, whoever sent the update and whatever the
    labels of the frame: a row is added only when the quota line returns
    at most 5, and it never returns less than the number of rows. *)
Theorem at_most_six_rows_per_day (dev : Z) (cst : option State)
    (update : Update) (w : World) (d : DataFrame) (u : Z) :
  count_since d u (date_today w) <= 6 ->
  count_since (df (snd (run (process_update dev cst update) w d))) u
    (date_today w)
  <= 6.
Proof.
  intros Hbefore.
  destruct (process_update_df dev cst update w d)
    as [Hsame | [[_ [Hq _]] Hadd]].
  - rewrite Hsame. exact Hbefore.
  - destruct Hq as [n [Hnum Hle]].
    apply quota_never_undercounts in Hnum.
    change max_images_per_day with 5 in Hle.
    rewrite Hadd, count_since_app.
    cbn [new_row hashed_user timestamp].
    destruct (Z.eqb_spec (user_of update) u) as [Heq | Hne]; cbn [andb].
    + rewrite <- Heq.
      destruct (date_today w <=? datetime_now w); lia.
    + lia.
Qed.

Lemma at_most_six_rows_per_day_witness :
  let d := map Sample.row_at
             [mk_datetime 2022 11 5 1 0 0 0; mk_datetime 2022 11 5 2 0 0 0;
              mk_datetime 2022 11 5 3 0 0 0; mk_datetime 2022 11 5 4 0 0 0;
              mk_datetime 2022 11 5 5 0 0 0] in
  count_since
    (df (snd (run (process_update Sample.developer None Sample.generate_cat)
                (Sample.world Sample.noon) d)))
    (hash Sample.alice) (date_today (Sample.world Sample.noon))
  <= 6.
Proof.
  intros d.
  apply (at_most_six_rows_per_day Sample.developer None Sample.generate_cat
           (Sample.world Sample.noon) d (hash Sample.alice)).
  vm_compute. discriminate.
Defined.

(** With five rows of the day a sixth is still recorded. *)
Example sixth_request_of_the_day_recorded :
  let d := map Sample.row_at
             [mk_datetime 2022 11 5 1 0 0 0; mk_datetime 2022 11 5 2 0 0 0;
              mk_datetime 2022 11 5 3 0 0 0; mk_datetime 2022 11 5 4 0 0 0;
              mk_datetime 2022 11 5 5 0 0 0] in
  count_since
    (df (snd (run (process_update Sample.developer None Sample.generate_cat)
                (Sample.world Sample.noon) d)))
    (hash Sample.alice) (date_today (Sample.world Sample.noon))
  = 6.
Proof. vm_compute. reflexivity. Qed.

(* ------------------------------------------------------------------ *)
(** ** The recorded prompt *)

Lemma lstrip_suffix (s : str) : exists pre, s = pre ++ lstrip s.
Proof.
  induction s as [| c r [pre Hpre]]; cbn [lstrip].
  - exists []. reflexivity.
  - destruct (isspace c).
    + exists (c :: pre). cbn. f_equal. exact Hpre.
    + exists []. reflexivity.
Qed.

Lemma lstrip_head (s : str) (c : char) (r : str) :
  lstrip s = c :: r -> isspace c = false.
Proof.
  induction s as [| x s' IH]; cbn [lstrip]; [discriminate |].
  destruct (isspace x) eqn:Hx; [exact IH |].
  intros H. inversion H. subst. exact Hx.
Qed.

Lemma rstrip_prefix (s : str) : exists post, s = rstrip s ++ post.
Proof.
  unfold rstrip. destruct (lstrip_suffix (rev s)) as [pre Hpre].
  exists (rev pre).
  rewrite <- rev_app_distr, <- Hpre. symmetry. apply rev_involutive.
Qed.

Lemma strip_trimmed (s : str) : trimmed (strip s).
Proof.
  unfold trimmed. destruct (strip s) as [| c r] eqn:Hs; [exact I |].
  unfold strip in Hs. split.
  - destruct (rstrip_prefix (lstrip s)) as [post Hpost].
    rewrite Hs in Hpost. cbn in Hpost.
    apply (lstrip_head s c (r ++ post)). exact Hpost.
  - unfold rstrip in Hs.
    destruct (lstrip (rev (lstrip s))) as [| x l] eqn:Hl.
    + discriminate Hs.
    + cbn [rev] in Hs. rewrite <- Hs. rewrite last_last.
      apply (lstrip_head _ _ _ Hl).
Qed.

(** X20: every row an update adds to the ledger has the label 0 and
    holds the stripped text
    of the update as its prompt, and that prompt is not empty and has no
    whitespace at either end; its user is the hash of the sender, its
    timestamp the time of the request and its size 256. *)
Theorem recorded_prompt_is_trimmed (dev : Z) (cst : option State)
    (update : Update) (w : World) (d : DataFrame) :
  let st := snd (run (process_update dev cst update) w d) in
  let p := strip (raw_prompt update) in
  df st = d \/
  (df st = d ++ [ {| label := 0;
                     group := is_group_of update;
                     timestamp := datetime_now w;
                     prompt := p;
                     size := 256;
                     hashed_user := hash (from_user_id update) |} ] /\
   p <> [] /\ trimmed p).
Proof.
  cbv zeta.
  destruct (process_update_df dev cst update w d) as [H | [[_ [_ Hp]] H]].
  - left. exact H.
  - right. split; [exact H |]. split; [exact Hp | apply strip_trimmed].
Qed.

(* ------------------------------------------------------------------ *)
(** ** Two requests in a row *)

Lemma fold_left_max_bound (l : list Z) (a x : Z) :
  a <= x -> Forall (fun t => t <= x) l -> fold_left Z.max l a <= x.
Proof.
  revert a. induction l as [| y l IH]; intros a Ha Hall; cbn [fold_left].
  - exact Ha.
  - inversion Hall; subst. apply IH; [lia | assumption].
Qed.

Lemma max_default_last (l : list datetime) (x dflt : datetime) :
  Forall (fun t => t <= x) l -> max_default (l ++ [x]) dflt = x.
Proof.
  intros Hall. destruct l as [| a l]; [reflexivity |].
  cbn [app max_default]. rewrite fold_left_app. cbn [fold_left].
  inversion Hall; subst.
  pose proof (fold_left_max_bound l a x ltac:(assumption) ltac:(assumption)).
  unfold datetime in *. lia.
Qed.

(** X21: once a request has been recorded, the next request of the same
    user less than 60 seconds later is answered "too soon" and changes
    nothing, whatever the provider did with the first one; this assumes
    no row of the user is later than the first request. *)
Theorem admitted_request_blocks_next_minute (dev : Z) (u1 u2 : Update)
    (p1 p2 : str) (w1 w2 : World) (d : DataFrame) (g : Z) :
  df (snd (run (check_if_prompt_empty_and_message_not_too_early
                  dev u1 p1) w1 d)) <> d ->
  user_of u2 = user_of u1 ->
  Forall (fun r => timestamp r <= datetime_now w1)
    (rows_of_user d (user_of u1)) ->
  datetime_now w2 = datetime_now w1 + g ->
  0 <= g < 60 * us_per_second ->
  let d1 := df (snd (run (check_if_prompt_empty_and_message_not_too_early
                            dev u1 p1) w1 d)) in
  run (check_if_prompt_empty_and_message_not_too_early dev u2 p2) w2 d1 =
  (Return EMPTY_MESSAGE,
   {| df := d1;
      calls := [send_message (chat_id u2)
                  (too_early_text (g / us_per_second)) false];
      outcome := Some (TooSoon (60 - g / us_per_second)) |}).
Proof.
  intros Hrecorded Huser Hearlier Hnow Hg. cbv zeta.
  destruct (check_df dev u1 p1 w1 d) as [Hsame | [_ Hdf]];
    [contradiction |].
  rewrite Hdf.
  set (d1 := d ++ [new_row u1 p1 (datetime_now w1) 256]).
  assert (Hmax : max_datetime_for_user d1 (user_of u2) = datetime_now w1).
  { unfold max_datetime_for_user, d1. rewrite Huser, rows_of_user_app.
    unfold rows_of_user at 2. cbn [filter new_row hashed_user].
    rewrite Z.eqb_refl, map_app. cbn [map timestamp].
    apply max_default_last.
    apply Forall_map. exact Hearlier. }
  change (60 * us_per_second) with 60000000 in Hg.
  assert (Hsd : seconds_diff d1 (user_of u2) (datetime_now w2)
                = g / us_per_second).
  { unfold seconds_diff. rewrite Hmax, Hnow.
    apply timedelta_seconds_within_day.
    change us_per_day with 86400000000. lia. }
  assert (Hlt : g / us_per_second < 60).
  { apply Z.div_lt_upper_bound; change us_per_second with 1000000; lia. }
  rewrite check_too_soon.
  - rewrite Hsd. reflexivity.
  - unfold passes_interval. rewrite Hsd. change min_requests_delay with 60. lia.
Qed.

Lemma admitted_request_blocks_next_minute_witness :
  fst (run (check_if_prompt_empty_and_message_not_too_early
              Sample.developer Sample.generate_nothing [])
         (Sample.world (mk_datetime 2022 11 5 12 0 45 0))
         (df (snd (run (check_if_prompt_empty_and_message_not_too_early
                          Sample.developer Sample.generate_cat (lit "a cat"))
                     (Sample2.moderation_raises Sample2.timeout Sample.noon)
                     []))))
  = Return EMPTY_MESSAGE.
Proof.
  refine (f_equal fst
            (admitted_request_blocks_next_minute Sample.developer
               Sample.generate_cat Sample.generate_nothing (lit "a cat") []
               (Sample2.moderation_raises Sample2.timeout Sample.noon)
               (Sample.world (mk_datetime 2022 11 5 12 0 45 0))
               [] 45000000 _ _ _ _ _)).
  - vm_compute. discriminate.
  - reflexivity.
  - constructor.
  - reflexivity.
  - vm_compute. split; congruence.
Defined.

(* ------------------------------------------------------------------ *)
(** ** The size of the error report *)

Lemma escape_char_length (c : char) :
  (1 <= List.length (escape_char c) <= 6)%nat.
Proof.
  unfold escape_char.
  destruct (c =? 38)%N; [cbn; lia |].
  destruct (c =? 60)%N; [cbn; lia |].
  destruct (c =? 62)%N; [cbn; lia |].
  destruct (c =? 34)%N; [cbn; lia |].
  destruct (c =? 39)%N; cbn; lia.
Qed.

Lemma html_escape_length (s : str) :
  (List.length s <= List.length (html_escape s) <= 6 * List.length s)%nat.
Proof.
  rewrite html_escape_per_char.
  induction s as [| c r IH]; cbn [flat_map List.length]; [lia |].
  rewrite length_app. pose proof (escape_char_length c). lia.
Qed.

(** X22: the error report is cut only when it has to be: an escaped
    traceback of at most 4036 characters is sent whole between the header
    and the closing tag, and for a longer one the message is exactly 4096
    characters long. *)
Theorem error_text_cut_only_when_long (tb_string : str) :
  ((List.length (html_escape tb_string) <= 4036)%nat ->
   error_text tb_string
   = error_header ++ html_escape tb_string ++ lit "</pre>") /\
  ((4036 <= List.length (html_escape tb_string))%nat ->
   List.length (error_text tb_string) = 4096%nat).
Proof.
  rewrite error_text_shape. split; intros Hlen.
  - rewrite firstn_all2 by exact Hlen. reflexivity.
  - rewrite !length_app, length_firstn.
    change (List.length error_header) with 54%nat.
    change (List.length (lit "</pre>")) with 6%nat. lia.
Qed.

(** X23: escaping at most multiplies the length by six, so a traceback
    of up to 672 characters always reaches the developer whole. *)
Theorem short_traceback_sent_whole (tb_string : str) :
  (List.length tb_string <= 672)%nat ->
  (List.length (html_escape tb_string) <= 6 * List.length tb_string)%nat /\
  error_text tb_string
  = error_header ++ html_escape tb_string ++ lit "</pre>".
Proof.
  intros Hshort. pose proof (html_escape_length tb_string) as Hlen.
  split; [lia |].
  rewrite error_text_shape. rewrite firstn_all2 by lia. reflexivity.
Qed.

Lemma short_traceback_sent_whole_witness :
  error_text (lit "Traceback: <Timeout>")
  = error_header ++ html_escape (lit "Traceback: <Timeout>") ++ lit "</pre>".
Proof.
  refine (proj2 (short_traceback_sent_whole (lit "Traceback: <Timeout>") _)).
  vm_compute. repeat constructor.
Defined.

(* ------------------------------------------------------------------ *)
(** ** Handlers started from any state *)

Lemma resume_clean (s : St) : resume s (clean s) = s.
Proof.
  destruct s as [d c o]. unfold resume, clean. cbn.
  rewrite app_nil_r. reflexivity.
Qed.

Lemma resume_resume (s st1 st2 : St) :
  resume (resume s st1) st2 = resume s (resume st1 st2).
Proof.
  unfold resume. cbn. rewrite app_assoc.
  destruct (outcome st2); reflexivity.
Qed.

Lemma framed_ret {A} (a : A) : framed (ret a).
Proof. intros w s. unfold ret. cbn. rewrite resume_clean. reflexivity. Qed.

Lemma framed_raise {A} (e : Exn) : framed (@raise A e).
Proof. intros w s. unfold raise. cbn. rewrite resume_clean. reflexivity. Qed.

Lemma framed_ask : framed ask.
Proof. intros w s. unfold ask. cbn. rewrite resume_clean. reflexivity. Qed.

Lemma framed_get_df : framed get_df.
Proof. intros w s. unfold get_df. cbn. rewrite resume_clean. reflexivity. Qed.

Lemma framed_set_df (d : DataFrame) : framed (set_df d).
Proof.
  intros w s. unfold set_df, resume, clean. cbn.
  rewrite app_nil_r. reflexivity.
Qed.

Lemma framed_call (c : Call) : framed (call c).
Proof. intros w s. reflexivity. Qed.

Lemma framed_mark (o : Outcome) : framed (mark o).
Proof.
  intros w s. unfold mark, resume, clean. cbn.
  rewrite app_nil_r. reflexivity.
Qed.

Lemma framed_answer {A} (r : Exn + A) : framed (answer r).
Proof. destruct r; [apply framed_raise | apply framed_ret]. Qed.

Lemma framed_bind {A B} (m : M A) (k : A -> M B) :
  framed m -> (forall a, framed (k a)) -> framed (bind m k).
Proof.
  intros Hm Hk w s. unfold bind. rewrite (Hm w s).
  destruct (m w (clean s)) as [[a | e] st1]; cbn [fst snd].
  - rewrite (Hk a w (resume s st1)), (Hk a w st1).
    replace (clean (resume s st1)) with (clean st1) by reflexivity.
    cbn [fst snd]. rewrite resume_resume. reflexivity.
  - reflexivity.
Qed.

Lemma framed_try_except {A} (body : M A) (handler : Exn -> M A) :
  framed body -> (forall e, framed (handler e)) ->
  framed (try_except body handler).
Proof.
  intros Hb Hh w s. unfold try_except. rewrite (Hb w s).
  destruct (body w (clean s)) as [[a | e] st1]; cbn [fst snd].
  - reflexivity.
  - rewrite (Hh e w (resume s st1)), (Hh e w st1).
    replace (clean (resume s st1)) with (clean st1) by reflexivity.
    cbn [fst snd]. rewrite resume_resume. reflexivity.
Qed.

Ltac framed_step :=
  first
    [ apply framed_ret | apply framed_raise | apply framed_ask
    | apply framed_get_df | apply framed_set_df | apply framed_call
    | apply framed_mark | apply framed_answer
    | apply framed_bind; [| intros ?]
    | apply framed_try_except; [| intros ?]
    | match goal with
      | |- framed (match ?x with _ => _ end) => destruct x
      end ].

Lemma framed_generate (dev : Z) (update : Update) (p : str) (chat : Z)
    (now : datetime) (user sz : Z) :
  framed (generate dev update p chat now user sz).
Proof.
  unfold generate, df_to_csv, openai_Moderation_create, openai_Image_create.
  cbv zeta. repeat framed_step.
Qed.

Lemma framed_check (dev : Z) (update : Update) (p : str) :
  framed (check_if_prompt_empty_and_message_not_too_early dev update p).
Proof.
  unfold check_if_prompt_empty_and_message_not_too_early.
  apply framed_bind; [apply framed_get_df | intros d].
  apply framed_bind; [apply framed_ask | intros w].
  cbv zeta.
  repeat first [apply framed_generate | framed_step].
Qed.

Lemma framed_error_handler (dev : Z) (e : Exn) : framed (error_handler dev e).
Proof. unfold error_handler. cbv zeta. repeat framed_step. Qed.

Lemma framed_process_update (dev : Z) (cst : option State) (update : Update) :
  framed (process_update dev cst update).
Proof.
  unfold process_update.
  destruct (conv_handler dev cst update) as [h |] eqn:Hh;
    [| apply framed_ret].
  apply framed_try_except.
  - apply framed_bind; [| intros s; apply framed_ret].
    destruct (conv_handler_cases _ _ _ _ Hh) as [-> | [-> | [-> | ->]]].
    + apply framed_check.
    + apply framed_check.
    + unfold start. repeat framed_step.
    + unfold cancel. apply framed_ret.
  - intros e. apply framed_try_except.
    + apply framed_bind; [apply framed_error_handler |].
      intros s. apply framed_ret.
    + intros e'. apply framed_ret.
Qed.

(** One update processed from any state adds to that state what it does
    from a clean one. *)
Lemma process_update_resume (dev : Z) (cst : option State)
    (update : Update) (w : World) (s : St) :
  process_update dev cst update w s =
  (fst (run (process_update dev cst update) w (df s)),
   resume s (snd (run (process_update dev cst update) w (df s)))).
Proof. apply framed_process_update. Qed.

(* ------------------------------------------------------------------ *)
(** ** A queue of updates *)

Lemma check_csv (dev : Z) (update : Update) (p : str) (w : World)
    (d : DataFrame) :
  let st := snd (run (check_if_prompt_empty_and_message_not_too_early
                        dev update p) w d) in
  Forall (csv_writes (fun rows => rows = df st)) (calls st).
Proof.
  cbv zeta. check_by_cases dev update p w d; cbn [snd df calls];
    try (repeat constructor).
  pose proof (generate_effects dev update p (chat_id update)
                (datetime_now w) generate_default_size w d)
    as [Hdf Hcalls].
  rewrite Hcalls, Hdf. apply Forall_app. split.
  - unfold calls_until_csv.
    destruct (chat_type update); repeat constructor.
  - destruct (to_csv_result w); [constructor |].
    unfold calls_after_csv.
    destruct (moderation_flagged w p) as [e | [|]].
    + destruct (exn_class e); repeat constructor.
    + repeat constructor.
    + cbv zeta.
      destruct (image_url w p 1 _ _) as [e | url];
        [destruct (exn_class e) |]; repeat constructor.
Qed.

Lemma process_update_csv (dev : Z) (cst : option State) (update : Update)
    (w : World) (d : DataFrame) :
  let st := snd (run (process_update dev cst update) w d) in
  Forall (csv_writes (fun rows => rows = df st)) (calls st).
Proof.
  cbv zeta.
  destruct (conv_handler dev cst update) as [h |] eqn:Hh.
  - rewrite (process_update_callback _ _ _ _ _ _ Hh).
    assert (Hh' : Forall (csv_writes (fun rows => rows = df (snd (run h w d))))
                    (calls (snd (run h w d)))).
    { destruct (conv_handler_cases _ _ _ _ Hh) as [-> | [-> | [-> | ->]]].
      - apply check_csv.
      - apply check_csv.
      - repeat constructor.
      - constructor. }
    destruct (run h w d) as [[s | e] st]; cbn [fst snd df calls] in *.
    + exact Hh'.
    + repeat (apply Forall_app; split); try exact Hh'; repeat constructor.
  - unfold run, process_update. rewrite Hh. constructor.
Qed.

Lemma process_update_row (dev : Z) (cst : option State) (update : Update)
    (w : World) (d : DataFrame) :
  let st := snd (run (process_update dev cst update) w d) in
  df st = d \/ exists r, df st = d ++ [r] /\ row_ok r.
Proof.
  cbv zeta.
  destruct (process_update_df dev cst update w d) as [H | [[_ [_ Hp]] H]].
  - left. exact H.
  - right. eexists. split; [exact H |].
    split; [reflexivity |]. split; [exact Hp | apply strip_trimmed].
Qed.

(** X24: over any queue of updates, from any state and whatever the
    outside world answers, the ledger only grows: the final frame is the
    initial one followed by at most one new row per update, and every new
    row has size 256 and a non-empty prompt without whitespace at either
    end. *)
Theorem ledger_only_grows (dev : Z) (queue : list (World * Update))
    (convs : Conversations) (s : St) :
  exists new,
    df (snd (process_updates dev convs queue s)) = df s ++ new /\
    (List.length new <= List.length queue)%nat /\
    Forall row_ok new.
Proof.
  revert convs s.
  induction queue as [| [w update] rest IH]; intros convs s.
  - exists []. cbn. rewrite app_nil_r. repeat split; constructor.
  - cbn [process_updates]. cbv zeta.
    rewrite process_update_resume.
    pose proof (process_update_row dev
                  (convs (chat_id update) (from_user_id update))
                  update w (df s)) as Hrow.
    cbv zeta in Hrow.
    set (st1 := snd (run (process_update dev
                            (convs (chat_id update) (from_user_id update))
                            update) w (df s))) in *.
    assert (Hnext : forall convs',
               exists new,
                 df (snd (process_updates dev convs' rest (resume s st1)))
                 = df s ++ new /\
                 (List.length new <= S (List.length rest))%nat /\
                 Forall row_ok new).
    { intros convs'.
      destruct (IH convs' (resume s st1)) as [new [Hdf [Hlen Hok]]].
      cbn [resume df] in Hdf.
      destruct Hrow as [Hsame | [r [Hadd Hr]]].
      - exists new. rewrite Hdf, Hsame. repeat split; [lia | exact Hok].
      - exists (r :: new). rewrite Hdf, Hadd, <- app_assoc.
        repeat split; [cbn; lia | constructor; assumption]. }
    destruct (fst (run _ w (df s))) as [cst' | e]; apply Hnext.
Qed.

(** X25: over any queue of updates the call log only grows, and every
    CSV write made on the way writes a frame that starts with the whole
    initial ledger: no write ever drops a row that was there. *)
Theorem csv_writes_keep_all_rows (dev : Z) (queue : list (World * Update))
    (convs : Conversations) (s : St) :
  exists more,
    calls (snd (process_updates dev convs queue s)) = calls s ++ more /\
    Forall (csv_writes (fun rows => exists new, rows = df s ++ new)) more.
Proof.
  revert convs s.
  induction queue as [| [w update] rest IH]; intros convs s.
  - exists []. cbn. rewrite app_nil_r. split; constructor.
  - cbn [process_updates]. cbv zeta.
    rewrite process_update_resume.
    pose proof (process_update_row dev
                  (convs (chat_id update) (from_user_id update))
                  update w (df s)) as Hrow.
    pose proof (process_update_csv dev
                  (convs (chat_id update) (from_user_id update))
                  update w (df s)) as Hcsv.
    cbv zeta in Hrow, Hcsv.
    set (st1 := snd (run (process_update dev
                            (convs (chat_id update) (from_user_id update))
                            update) w (df s))) in *.
    assert (Hst1 : exists new1, df st1 = df s ++ new1).
    { destruct Hrow as [Hsame | [r [Hadd _]]].
      - exists []. rewrite app_nil_r. exact Hsame.
      - exists [r]. exact Hadd. }
    destruct Hst1 as [new1 Hnew1].
    assert (Hnext : forall convs',
               exists more,
                 calls (snd (process_updates dev convs' rest (resume s st1)))
                 = calls s ++ more /\
                 Forall (csv_writes (fun rows => exists new, rows = df s ++ new))
                   more).
    { intros convs'.
      destruct (IH convs' (resume s st1)) as [more [Hcalls Hmore]].
      cbn [resume df calls] in Hcalls, Hmore.
      exists (calls st1 ++ more). split.
      - rewrite Hcalls. symmetry. apply app_assoc.
      - apply Forall_app. split.
        + eapply Forall_impl; [| exact Hcsv].
          intros [] Hc; cbn in *; try exact I.
          exists new1. rewrite Hc. exact Hnew1.
        + eapply Forall_impl; [| exact Hmore].
          intros [] Hc; cbn in *; try exact I.
          destruct Hc as [new Hc]. exists (new1 ++ new).
          rewrite Hc, Hnew1. symmetry. apply app_assoc. }
    destruct (fst (run _ w (df s))) as [cst' | e]; apply Hnext.
Qed.

(** X26: over a queue of updates processed on one calendar day, a user
    who starts with at most 6 rows of that day never gets more than 6,
    whatever the senders, the labels of the frame and the answers of the
    outside world. *)
Theorem daily_cap_over_a_queue (dev : Z) (queue : list (World * Update))
    (convs : Conversations) (s : St) (u : Z) (today : datetime) :
  Forall (fun wu => date_today (fst wu) = today) queue ->
  count_since (df s) u today <= 6 ->
  count_since (df (snd (process_updates dev convs queue s))) u today <= 6.
Proof.
  revert convs s.
  induction queue as [| [w update] rest IH]; intros convs s Hday Hbefore.
  - exact Hbefore.
  - inversion Hday as [| ? ? Hw Hrest]; subst. cbn [fst] in *.
    cbn [process_updates]. cbv zeta.
    rewrite process_update_resume.
    pose proof (count_of_day_step dev
                  (convs (chat_id update) (from_user_id update))
                  update w (df s) u Hbefore) as Hstep.
    set (st1 := snd (run (process_update dev
                            (convs (chat_id update) (from_user_id update))
                            update) w (df s))) in *.
    destruct (fst (run _ w (df s))) as [cst' | e];
      apply IH; try exact Hrest; exact Hstep.
Qed.

Lemma daily_cap_over_a_queue_witness :
  count_since
    (df (snd (process_updates Sample.developer no_conversations
                [(Sample.world (mk_datetime 2022 11 5 11 0 0 0),
                  Sample2.bob_generate);
                 (Sample.world Sample.noon, Sample.generate_cat)]
                {| df := initial_df (Some Sample2.six_rows_of_alice);
                   calls := []; outcome := None |})))
    (hash Sample.alice) (start_of_day Sample.noon)
  <= 6.
Proof.
  apply (daily_cap_over_a_queue Sample.developer
           [(Sample.world (mk_datetime 2022 11 5 11 0 0 0),
             Sample2.bob_generate);
            (Sample.world Sample.noon, Sample.generate_cat)]
           no_conversations
           {| df := initial_df (Some Sample2.six_rows_of_alice);
              calls := []; outcome := None |}
           (hash Sample.alice) (start_of_day Sample.noon)).
  - repeat constructor.
  - vm_compute. discriminate.
Defined.

(** Two requests five minutes apart are both recorded and delivered. *)
Example two_requests_recorded :
  map timestamp
    (df (snd (process_updates Sample.developer no_conversations
                [(Sample.world Sample.noon, Sample.generate_cat);
                 (Sample.world (mk_datetime 2022 11 5 12 5 0 0),
                  Sample.generate_cat)]
                {| df := []; calls := []; outcome := None |})))
  = [Sample.noon; mk_datetime 2022 11 5 12 5 0 0].
Proof. vm_compute. reflexivity. Qed.
